(** * Insider Trade Tracker: a shallow embedding of the server script
      and of the dashboard script (public/app.js).

    JavaScript numbers are IEEE 754 binary64 values; they are modelled by
    Rocq's primitive floats, whose operations are the same binary64
    operations with round-to-nearest-even. *)

From Stdlib Require Import Bool List ZArith Lia String Ascii.
From Stdlib Require Import Floats.
Import ListNotations.

(** ** JavaScript numbers *)

Module JsNum.

Local Open Scope float_scope.

Definition number := float.

(** [Number.isNaN]: NaN is the only value different from itself. *)
Definition isNaN (x : number) : bool := negb (x =? x).

(** ToBoolean on a number: NaN, [+0] and [-0] are falsy. *)
Definition truthy (x : number) : bool := negb (isNaN x || (x =? 0)).

(** [x || d] on numbers. *)
Definition or_default (x d : number) : number := if truthy x then x else d.

(** [v || d] where [v] is a number or [undefined] (a missing property,
    or an optional chain that stopped short). *)
Definition opt_or (v : option number) (d : number) : number :=
  match v with
  | Some x => or_default x d
  | None => d
  end.

(** The relational operators on numbers. *)
Definition gt (x y : number) : bool := y <? x.
Definition lt (x y : number) : bool := x <? y.
Definition le (x y : number) : bool := x <=? y.

(** [===] on numbers. *)
Definition strict_eq (x y : number) : bool := x =? y.

(** The same operators when the left operand may be [undefined]
    ([None]): ToNumber(undefined) is NaN, and every comparison with NaN
    is false. *)
Definition gt_u (v : option number) (y : number) : bool :=
  match v with Some x => gt x y | None => false end.
Definition lt_u (v : option number) (y : number) : bool :=
  match v with Some x => lt x y | None => false end.
Definition strict_eq_u (v : option number) (y : number) : bool :=
  match v with Some x => strict_eq x y | None => false end.

(** [x <= y] when the left operand may be [null] ([None]):
    ToNumber(null) is [+0]. *)
Definition le_null (v : option number) (y : number) : bool :=
  match v with Some x => le x y | None => le 0 y end.

(** The coercion as the specification words it, to compare with the
    fallback [x || 0] of the source: a result that is NaN becomes 0, any
    other result is kept. *)
Definition nan_to_zero (x : number) : number := if isNaN x then 0 else x.


(** The binary64 value 100 in the specification format of the library. *)
Definition sf_hundred : spec_float := Eval vm_compute in Prim2SF 100.

End JsNum.

(** ** JavaScript strings: sequences of UTF-16 code units *)

Module JsString.

Definition code_unit := N.
Definition jsstring := list code_unit.

(** A literal of the source (ASCII only). *)
Fixpoint js (s : string) : jsstring :=
  match s with
  | EmptyString => []
  | String a s' => N_of_ascii a :: js s'
  end.

(** ToBoolean on a string: only the empty string is falsy. *)
Definition truthy_str (s : jsstring) : bool :=
  match s with [] => false | _ :: _ => true end.

(** [v || d] where [v] is a string or [undefined]. *)
Definition opt_or_str (v : option jsstring) (d : jsstring) : jsstring :=
  match v with
  | Some s => if truthy_str s then s else d
  | None => d
  end.

Fixpoint eqb_str (a b : jsstring) : bool :=
  match a, b with
  | [], [] => true
  | x :: a', y :: b' => N.eqb x y && eqb_str a' b'
  | _, _ => false
  end.

(** ToString on a string or [undefined]. *)
Definition toString (v : option jsstring) : jsstring :=
  match v with
  | Some s => s
  | None => js "undefined"
  end.

End JsString.

(** ** Regular expressions: the fragment the server uses

    A pattern is a sequence of terms: the assertions [^] and [$] (no
    multiline flag), and a one-range character class under the greedy
    quantifier [+].  The matcher backtracks as the language's does. *)

Module RegExp.

Import JsString.

Inductive term :=
| AssertStart
| AssertEnd
| ClassPlus (lo hi : code_unit).

Definition pattern := list term.

Definition in_range (lo hi c : code_unit) : bool :=
  (N.leb lo c && N.leb c hi)%bool.

(** The greedy loop of [+] after its first character: one more character
    of the class while there is one, then the rest of the pattern [k];
    when the rest fails, the loop gives the last character back and tries
    the rest again. *)
Fixpoint plus_loop (lo hi : code_unit) (k : nat -> jsstring -> bool)
    (i : nat) (s : jsstring) {struct s} : bool :=
  match s with
  | c :: s' => (in_range lo hi c && plus_loop lo hi k (S i) s') || k i s
  | [] => k i s
  end.

(** [matches p i s]: the pattern matches at index [i] of the input,
    [s] being the input from index [i] on. *)
Fixpoint matches (p : pattern) (i : nat) (s : jsstring) {struct p} : bool :=
  match p with
  | [] => true
  | AssertStart :: p' => Nat.eqb i 0 && matches p' i s
  | AssertEnd :: p' =>
      match s with
      | [] => matches p' i s
      | _ :: _ => false
      end
  | ClassPlus lo hi :: p' =>
      match s with
      | c :: s' => in_range lo hi c && plus_loop lo hi (matches p') (S i) s'
      | [] => false
      end
  end.

(** The search of a match from each index in turn, last the end of
    the input. *)
Fixpoint search (p : pattern) (i : nat) (s : jsstring) {struct s} : bool :=
  matches p i s ||
  match s with
  | _ :: s' => search p (S i) s'
  | [] => false
  end.

(** [RegExp.prototype.test] of a pattern without flags: the argument
    is converted to a string and searched from index 0. *)
Definition test (p : pattern) (v : option jsstring) : bool :=
  search p 0 (toString v).

End RegExp.

(** ** The ratio analyzer (public/app.js, analyzeFinancialData) *)

Module Analyzer.

Import JsNum.
Local Open Scope float_scope.

(** A data point of the financials provider: [{ value: ... }]. *)
Record datapoint := { value : option number }.

Record income_statement_t := {
  revenues : option datapoint;
  net_income_loss : option datapoint
}.

Record balance_sheet_t := {
  assets : option datapoint;
  current_assets : option datapoint;
  current_liabilities : option datapoint;
  liabilities : option datapoint;
  equity : option datapoint
}.

Record financials_t := {
  income_statement : option income_statement_t;
  balance_sheet : option balance_sheet_t
}.

Record financialData_t := { financials : option financials_t }.

(** The optional chains [financials.income_statement?.F?.value] and
    [financials.balance_sheet?.F?.value]. *)
Definition chain {A : Type} (o : option A) (field : A -> option datapoint)
  : option number :=
  match o with
  | None => None
  | Some a =>
      match field a with
      | None => None
      | Some d => value d
      end
  end.

Inductive recommendation_t := BUY | HOLD | SELL.

Record details_t := {
  netProfitMargin : number;
  returnOnAssets : number;
  returnOnEquity : number;
  currentRatio : number;
  debtToEquity : number;
  assetTurnover : number
}.

(** [details] is [None] for the empty object [{}]. *)
Record report := {
  recommendation : recommendation_t;
  details : option details_t
}.

(** The extracted values, named as the local constants of the source. *)
Record extracted := {
  x_revenues : number;
  x_netIncome : number;
  x_totalAssets : number;
  x_currentAssets : number;
  x_currentLiabilities : number;
  x_totalLiabilities : number;
  x_equity : number
}.

Definition extract (f : financials_t) : extracted :=
  {| x_revenues := opt_or (chain (income_statement f) revenues) 0;
     x_netIncome := opt_or (chain (income_statement f) net_income_loss) 0;
     x_totalAssets := opt_or (chain (balance_sheet f) assets) 0;
     x_currentAssets := opt_or (chain (balance_sheet f) current_assets) 0;
     x_currentLiabilities :=
       opt_or (chain (balance_sheet f) current_liabilities) 1;
     x_totalLiabilities := opt_or (chain (balance_sheet f) liabilities) 0;
     x_equity := opt_or (chain (balance_sheet f) equity) 1 |}.

Definition ratios (e : extracted) : details_t :=
  {| netProfitMargin := or_default ((x_netIncome e / x_revenues e) * 100) 0;
     returnOnAssets := or_default ((x_netIncome e / x_totalAssets e) * 100) 0;
     returnOnEquity := or_default ((x_netIncome e / x_equity e) * 100) 0;
     currentRatio := or_default (x_currentAssets e / x_currentLiabilities e) 0;
     debtToEquity := or_default (x_totalLiabilities e / x_equity e) 0;
     assetTurnover := or_default (x_revenues e / x_totalAssets e) 0 |}.

Definition buy_condition (d : details_t) : bool :=
  gt (netProfitMargin d) 10 && gt (returnOnAssets d) 5 &&
  gt (returnOnEquity d) 10 && gt (currentRatio d) 1.5 &&
  lt (debtToEquity d) 2.

Definition sell_condition (d : details_t) : bool :=
  lt (netProfitMargin d) 0 || lt (returnOnAssets d) 1 ||
  lt (currentRatio d) 1.

Definition recommend (d : details_t) : recommendation_t :=
  if buy_condition d then BUY
  else if sell_condition d then SELL
  else HOLD.

Definition analyzeFinancialData (financialData : financialData_t) : report :=
  match financials financialData with
  | None => {| recommendation := HOLD; details := None |}
  | Some f =>
      let d := ratios (extract f) in
      {| recommendation := recommend d; details := Some d |}
  end.

(** Reading the metric [r.details.X] of a report: [undefined] ([None])
    on the empty object. *)
Definition metric (X : details_t -> number) (r : report) : option number :=
  option_map X (details r).

(** Building inputs. *)
Definition dp (x : number) : option datapoint := Some {| value := Some x |}.

Definition snapshot (rev ni ta ca cl tl eq : option datapoint)
  : financialData_t :=
  {| financials := Some
       {| income_statement :=
            Some {| revenues := rev; net_income_loss := ni |};
          balance_sheet :=
            Some {| assets := ta; current_assets := ca;
                    current_liabilities := cl; liabilities := tl;
                    equity := eq |} |} |}.

(** *** Sample snapshots *)

(** The worked example: revenue 1000, net income 150, assets 2000, current
    assets 500, current liabilities 200, liabilities 300, equity 1000. *)
Definition healthy_snapshot : financialData_t :=
  snapshot (dp 1000) (dp 150) (dp 2000) (dp 500) (dp 200) (dp 300) (dp 1000).

(** The same with net income 100: the margin is exactly 10. *)
Definition margin_ten_snapshot : financialData_t :=
  snapshot (dp 1000) (dp 100) (dp 2000) (dp 500) (dp 200) (dp 300) (dp 1000).

(** The same with net income -50. *)
Definition loss_snapshot : financialData_t :=
  snapshot (dp 1000) (dp (-50)) (dp 2000) (dp 500) (dp 200) (dp 300)
           (dp 1000).

(** Revenue and net income both reported as 0. *)
Definition zero_revenue_snapshot : financialData_t :=
  snapshot (dp 0) (dp 0) (dp 2000) (dp 500) (dp 200) (dp 300) (dp 1000).

(** Equity and current liabilities both reported as 0, net income 7. *)
Definition zero_equity_snapshot : financialData_t :=
  snapshot (dp 1000) (dp 7) (dp 2000) (dp 500) (dp 0) (dp 300) (dp 0).

End Analyzer.

(** ** Transaction records, as the transactions provider sends them *)

Module Trade.

Import JsNum JsString.

(** A property that is missing ([undefined]) or [null] is [None]. *)
Record trade := {
  symbol : option jsstring;
  name : option jsstring;
  transactionCode : option jsstring;
  change : option number;
  transactionPrice : option number;
  transactionDate : option jsstring
}.

End Trade.

(** ** The server: transaction store, refresh and the three endpoints *)

Module Server.

Import JsNum JsString RegExp Analyzer Trade.

(** The pattern [/^[A-Z]+$/]. *)
Definition usEquityPattern : pattern :=
  [AssertStart; ClassPlus 65%N 90%N; AssertEnd].

Definition isUsEquity (symbol : option jsstring) : bool :=
  test usEquityPattern symbol.

(** An uppercase ASCII letter, A to Z. *)
Definition uppercase (c : code_unit) : Prop := (65 <= c <= 90)%N.

(** A ticker of the US-equity format: one or more uppercase letters and
    nothing else. *)
Definition us_equity_ticker (s : jsstring) : Prop :=
  s <> [] /\ Forall uppercase s.

(** Exceptions and the results of code that may throw. *)
Inductive exn := TypeError (what : string) | AxiosError (message : string).

Definition message_of (e : exn) : string :=
  match e with TypeError m => m | AxiosError m => m end.

Definition result (A : Type) := (exn + A)%type.
Definition ok {A : Type} (a : A) : result A := inr a.
Definition throw {A : Type} (e : exn) : result A := inl e.
Definition bind {A B : Type} (r : result A) (k : A -> result B) : result B :=
  match r with inl e => inl e | inr a => k a end.

Notation "x <- r ;; k" := (bind r (fun x => k))
  (at level 61, r at next level, right associativity).

(** What [await axios.get(...)] does: it returns a response with its
    parsed body, or throws.  It throws with the provider's status when
    the provider answered outside 2xx, and without a response when the
    provider could not be reached. *)
Record axios_error := {
  message : string;
  response_status : option Z
}.

Inductive axios_outcome (A : Type) :=
| Fulfilled (data : A)
| Rejected (error : axios_error).
Arguments Fulfilled {A} data.
Arguments Rejected {A} error.

(** An element of the array [response.data.data]: a record, or [null]
    (reading a property of it throws). *)
Inductive element := ElemNull | ElemTrade (t : trade).

(** The body of the transactions provider's response, by what the
    expression [response.data.data.filter] does on it. *)
Inductive transactions_body :=
| BodyAbsent              (* response.data is null or undefined *)
| BodyWithoutData         (* response.data.data is missing or no array *)
| BodyData (elements : list element).

(** [array.filter((trade) => isUsEquity(trade.symbol))], the callback
    run on the elements from left to right. *)
Fixpoint filterUsEquities (l : list element) : result (list trade) :=
  match l with
  | [] => ok []
  | ElemNull :: _ =>
      throw (TypeError "Cannot read properties of null (reading 'symbol')")
  | ElemTrade t :: l' =>
      rest <- filterUsEquities l' ;;
      ok (if isUsEquity (symbol t) then t :: rest else rest)
  end.

(** The state of the server process: the store, and the lines the
    refreshes write to the console (the other lines of the process, such
    as those of the endpoints, are not recorded). *)
Record state := {
  insiderData : list trade;
  console_log : list string;
  console_error : list (string * string)
}.

Definition initial : state :=
  {| insiderData := []; console_log := []; console_error := [] |}.

(** The [try] block of fetchInsiderTradingData, up to the assignment. *)
Definition fetchAndFilter (o : axios_outcome transactions_body)
  : result (list trade) :=
  match o with
  | Rejected e => throw (AxiosError (message e))
  | Fulfilled BodyAbsent =>
      throw (TypeError "Cannot read properties of undefined (reading 'data')")
  | Fulfilled BodyWithoutData =>
      throw (TypeError "response.data.data.filter is not a function")
  | Fulfilled (BodyData l) => filterUsEquities l
  end.

(** One refresh, from the outcome of its request to the state it
    leaves.  The assignment in the [try] block is the only write to the
    store, and a refresh touches the state only after its request has
    settled, so it acts on the state at the moment its request settles. *)
Definition fetchInsiderTradingData (st : state)
    (o : axios_outcome transactions_body) : state :=
  match fetchAndFilter o with
  | inr filtered =>
      {| insiderData := filtered;
         console_log :=
           console_log st ++
           ["Insider trading data updated for US equities only."%string];
         console_error := console_error st |}
  | inl error =>
      {| insiderData := insiderData st;
         console_log := console_log st;
         console_error :=
           console_error st ++
           [("Error fetching insider trading data:"%string,
             message_of error)] |}
  end.

(** The states the server reaches: the refreshes (the one at start and
    those of the schedule) in the order their requests settle. *)
Definition run (outcomes : list (axios_outcome transactions_body)) : state :=
  fold_left fetchInsiderTradingData outcomes initial.

(** GET /api/insider-trades. *)
Definition getTransactions (st : state) : list trade := insiderData st.

(** The ways a refresh fails: the provider is not reached, it answers
    outside 2xx, or the body is malformed (no body, no [data] array, or
    an element that is no record). *)
Inductive refresh_failure : axios_outcome transactions_body -> Prop :=
| network_error (e : axios_error) :
    response_status e = None -> refresh_failure (Rejected e)
| non_2xx (e : axios_error) (c : Z) :
    response_status e = Some c -> ~ (200 <= c < 300)%Z ->
    refresh_failure (Rejected e)
| malformed_no_body : refresh_failure (Fulfilled BodyAbsent)
| malformed_no_data : refresh_failure (Fulfilled BodyWithoutData)
| malformed_element (l : list element) :
    In ElemNull l -> refresh_failure (Fulfilled (BodyData l)).

(** The records of an array of elements, when all of them are records. *)
Fixpoint records_of (l : list element) : option (list trade) :=
  match l with
  | [] => Some []
  | ElemNull :: _ => None
  | ElemTrade t :: l' =>
      match records_of l' with
      | Some ts => Some (t :: ts)
      | None => None
      end
  end.

(** The records of a complete provider response: a response that
    arrived, with an array of records as its data. *)
Definition complete_response (o : axios_outcome transactions_body)
  : option (list trade) :=
  match o with
  | Fulfilled (BodyData l) => records_of l
  | _ => None
  end.

(** The records of the last complete response among the outcomes. *)
Definition last_complete (outcomes : list (axios_outcome transactions_body))
  : option (list trade) :=
  fold_left
    (fun acc o =>
       match complete_response o with
       | Some ts => Some ts
       | None => acc
       end)
    outcomes None.

(** The records of a response that pass the symbol filter, in the
    response's order. *)
Definition us_equities (ts : list trade) : list trade :=
  filter (fun t => isUsEquity (symbol t)) ts.

(** The snapshot served after [outcomes] is the filtered output of one
    complete provider response among them. *)
Definition served_from_one_response
    (outcomes : list (axios_outcome transactions_body)) : Prop :=
  exists (o : axios_outcome transactions_body) (ts : list trade),
    In o outcomes /\ complete_response o = Some ts /\
    getTransactions (run outcomes) = us_equities ts.

(** The answer of an endpoint: the status the handler sets, and what it
    passes to [res.json] or to [res.send] (which Express leaves out of the
    answer when the status is 204 or 304). *)
Inductive payload (A : Type) := Json (a : A) | Text (s : string).
Arguments Json {A} a.
Arguments Text {A} s.

Record http_response (A : Type) := {
  status : Z;
  body : payload A
}.
Arguments status {A} _.
Arguments body {A} _.

(** [s || 500] on a status that may be [undefined]. *)
Definition status_or_500 (s : option Z) : Z :=
  match s with
  | Some c => if Z.eqb c 0 then 500%Z else c
  | None => 500%Z
  end.

(** GET /api/tiingo?symbol=..., from the outcome of the request to the
    price provider; [None] is a body that is [null], and an empty array
    has length 0. *)
Definition tiingo_handler {P : Type} (symbol : string)
    (o : axios_outcome (option (list P))) : http_response (list P) :=
  match o with
  | Fulfilled (Some (p :: ps)) =>
      {| status := 200; body := Json (p :: ps) |}
  | Fulfilled _ =>
      {| status := 404;
         body := Text ("No stock price data available for symbol: " ++ symbol) |}
  | Rejected e =>
      {| status := status_or_500 (response_status e);
         body := Text "Error fetching stock price data" |}
  end.

(** The body of the financials provider's response. *)
Inductive financials_body :=
| FBodyAbsent                                  (* response.data is null *)
| FBody (results : option (list financialData_t)).

(** GET /api/polygon-financials?symbol=...; the symbol is used in the
    request and on the console only. *)
Definition polygon_financials_handler (o : axios_outcome financials_body)
  : http_response financialData_t :=
  match o with
  | Fulfilled (FBody (Some (r :: _))) => {| status := 200; body := Json r |}
  | Fulfilled (FBody _) =>
      {| status := 404; body := Text "No financial data available." |}
  | Fulfilled FBodyAbsent =>
      {| status := 500; body := Text "Error fetching financial data." |}
  | Rejected _ =>
      {| status := 500; body := Text "Error fetching financial data." |}
  end.

(** *** Sample states and outcomes *)

Definition aapl_purchase : trade :=
  {| symbol := Some (js "AAPL"); name := None;
     transactionCode := Some (js "P"); change := None;
     transactionPrice := None; transactionDate := None |}.

(** A store that holds one record. *)
Definition one_record_state : state :=
  {| insiderData := [aapl_purchase]; console_log := []; console_error := [] |}.

(** The provider answers with status 503. *)
Definition unavailable_503 : axios_outcome transactions_body :=
  Rejected {| message := "Request failed with status code 503";
              response_status := Some 503%Z |}.

(** The provider is not reached. *)
Definition connection_refused : axios_outcome transactions_body :=
  Rejected {| message := "connect ECONNREFUSED"; response_status := None |}.

(** The provider answers with status 429. *)
Definition too_many_requests : axios_error :=
  {| message := "Request failed with status code 429";
     response_status := Some 429%Z |}.

End Server.

(** ** The dashboard: table rows and the detail view (public/app.js) *)

Module Dashboard.

Import JsNum JsString Analyzer Trade.
Local Open Scope float_scope.

(** [parseFloat] applied to a number converts it to a string and parses
    the string back.  It is called on truthy numbers only (neither NaN
    nor a zero), whose shortest decimal form, or [Infinity], parses back
    to the same number. *)
Definition parseFloat (x : number) : number := x.

(** A table cell, by the template that fills it. *)
Inductive cell :=
| CText (s : jsstring)              (* a string, as it is *)
| CNumber (x : number)              (* a number, as it is *)
| CDollarFixed (x : number)         (* a dollar sign, then x.toFixed(2) *)
| CDollarLocale (x : number).       (* a dollar sign, then x.toLocaleString() *)

(** The constants of the loop body of displayData. *)
Definition company (t : trade) : jsstring := opt_or_str (symbol t) (js "N/A").
Definition insider (t : trade) : jsstring := opt_or_str (name t) (js "N/A").
Definition transactionType (t : trade) : jsstring :=
  opt_or_str (transactionCode t) (js "N/A").
Definition shares (t : trade) : number := opt_or (change t) 0.

(** [None] is [null]. *)
Definition price (t : trade) : option number :=
  match transactionPrice t with
  | Some x => if truthy x then Some (parseFloat x) else None
  | None => None
  end.

Definition transactionDate_ (t : trade) : jsstring :=
  opt_or_str (transactionDate t) (js "N/A").

Definition tradeValue (t : trade) : number :=
  match price t with
  | Some p => if truthy p && truthy (shares t) then p * shares t else 0
  | None => 0
  end.

Definition classList (t : trade) : list string :=
  if eqb_str (transactionType t) (js "P") then
    if le_null (price t) 2 then ["highlight-green-bold"%string]
    else ["highlight-green"%string]
  else [].

Definition price_cell (t : trade) : cell :=
  match price t with
  | Some p => CDollarFixed p
  | None => CText (js "N/A")
  end.

Definition tradeValue_cell (t : trade) : cell :=
  if truthy (tradeValue t) then CDollarLocale (tradeValue t)
  else CText (js "N/A").

Record row := {
  row_classList : list string;
  row_cells : list cell
}.

Definition render_row (t : trade) : row :=
  {| row_classList := classList t;
     row_cells :=
       [CText (company t); CText (insider t); CText (transactionType t);
        CNumber (shares t); price_cell t; tradeValue_cell t;
        CText (transactionDate_ t)] |}.

(** The sixth cell of a row, the trade value. *)
Definition tradeValue_shown (r : row) : option cell := nth_error (row_cells r) 5.

(** displayData: the table body is emptied and one row is appended per
    record, in order. *)
Definition displayData (data : list trade) : list row := map render_row data.

(** *** The detail view *)

Record stockInfo_t := {
  si_price : option number;
  si_high : option number;
  si_low : option number;
  si_volume : option number
}.

(** The content of the detail view: the recommendation and the metric
    rows, each value printed with [toFixed(2)]. *)
Record modal_content_t := {
  shown_recommendation : recommendation_t;
  shown_metrics : list (string * number)
}.

Record page := {
  modal_display : string;
  modal_title : jsstring;
  modal_content : option modal_content_t;
  financialChartInstance : option (list number);
  console_warn : list string
}.

Inductive completion := Normal | Threw (error : string).

(** createChart: the canvas is part of the page; the five values are
    read from [financialData.financials], which throws when
    [financials] is missing. *)
Definition createChart (financialData : financialData_t) (pg : page)
  : page * completion :=
  match financials financialData with
  | None =>
      ({| modal_display := modal_display pg;
          modal_title := modal_title pg;
          modal_content := modal_content pg;
          financialChartInstance := None;
          console_warn := console_warn pg |},
       Threw "TypeError: Cannot read properties of undefined")
  | Some f =>
      let data :=
        [opt_or (chain (income_statement f) revenues) 0;
         opt_or (chain (income_statement f) net_income_loss) 0;
         opt_or (chain (balance_sheet f) assets) 0;
         opt_or (chain (balance_sheet f) liabilities) 0;
         opt_or (chain (balance_sheet f) equity) 0] in
      ({| modal_display := modal_display pg;
          modal_title := modal_title pg;
          modal_content := modal_content pg;
          financialChartInstance := Some data;
          console_warn := console_warn pg |},
       Normal)
  end.

(** showModal.  The title is written first.  The template then reads
    the six metrics of [recommendationData.details] and calls [toFixed]
    on each: on the empty object the first of them is [undefined] and
    the call throws, before the content is written and before the view
    is displayed. *)
Definition showModal (company : jsstring) (stockInfo : stockInfo_t)
    (recommendationData : report) (financialData : option financialData_t)
    (pg : page) : page * completion :=
  let title := (js "Detailed Analysis for " ++ company)%list in
  match details recommendationData with
  | None =>
      ({| modal_display := modal_display pg;
          modal_title := title;
          modal_content := modal_content pg;
          financialChartInstance := financialChartInstance pg;
          console_warn := console_warn pg |},
       Threw "TypeError: Cannot read properties of undefined (reading 'toFixed')")
  | Some d =>
      let content :=
        {| shown_recommendation := recommendation recommendationData;
           shown_metrics :=
             [("Net Profit Margin"%string, netProfitMargin d);
              ("Return on Assets (ROA)"%string, returnOnAssets d);
              ("Return on Equity (ROE)"%string, returnOnEquity d);
              ("Current Ratio"%string, currentRatio d);
              ("Debt-to-Equity Ratio"%string, debtToEquity d);
              ("Asset Turnover Ratio"%string, assetTurnover d)] |} in
      let shown :=
        {| modal_display := "flex";
           modal_title := title;
           modal_content := Some content;
           financialChartInstance := financialChartInstance pg;
           console_warn := console_warn pg |} in
      match financialData with
      | Some fd => createChart fd shown
      | None =>
          ({| modal_display := "flex";
              modal_title := title;
              modal_content := Some content;
              financialChartInstance := financialChartInstance pg;
              console_warn :=
                console_warn pg ++
                ["Financial data not available. Skipping chart creation."%string] |},
           Normal)
      end
  end.

(** What a call of analyzeFinancialData writes with [console.warn]: one
    line when the [financials] object is missing, nothing otherwise. *)
Definition analysis_warning (financialData : financialData_t) (pg : page)
  : page :=
  match financials financialData with
  | Some _ => pg
  | None =>
      {| modal_display := modal_display pg;
         modal_title := modal_title pg;
         modal_content := modal_content pg;
         financialChartInstance := financialChartInstance pg;
         console_warn :=
           console_warn pg ++
           ["Incomplete financial data. Analysis may be limited."%string] |}
  end.

(** The click handler of a row, from what the two fetches returned
    ([None] is [null]).  analyzeFinancialData is called, and may warn,
    only when there is financial data. *)
Definition rowClick (company : jsstring) (stockInfo : option stockInfo_t)
    (financialData : option financialData_t) (pg : page)
  : page * completion :=
  match stockInfo with
  | Some si =>
      let recommendationData :=
        match financialData with
        | Some fd => analyzeFinancialData fd
        | None => {| recommendation := HOLD; details := None |}
        end in
      let warned :=
        match financialData with
        | Some fd => analysis_warning fd pg
        | None => pg
        end in
      showModal company si recommendationData financialData warned
  | None => (pg, Normal)
  end.

(** The page as loaded: the detail view is hidden. *)
Definition closed_page : page :=
  {| modal_display := "none";
     modal_title := js "Details";
     modal_content := None;
     financialChartInstance := None;
     console_warn := [] |}.

(** *** Sample records *)

(** A sale at price 10 with share delta -5. *)
Definition sale_of_five : trade :=
  {| symbol := Some (js "ABC"); name := None;
     transactionCode := Some (js "S"); change := Some (-5);
     transactionPrice := Some 10; transactionDate := None |}.

(** A purchase at price 1.5. *)
Definition cheap_purchase : trade :=
  {| symbol := Some (js "ABC"); name := None;
     transactionCode := Some (js "P"); change := Some 100;
     transactionPrice := Some 1.5; transactionDate := None |}.

(** A purchase whose record carries no price. *)
Definition purchase_without_price : trade :=
  {| symbol := Some (js "ABC"); name := None;
     transactionCode := Some (js "P"); change := Some 100;
     transactionPrice := None; transactionDate := None |}.

(** A price point, as fetchTiingoData returns it. *)
Definition sample_stockInfo : stockInfo_t :=
  {| si_price := Some 12.5; si_high := Some 13; si_low := Some 12;
     si_volume := Some 250000 |}.

End Dashboard.

(** ** Classes of binary64 values, in the specification format *)

Module SpecialValues.

(** A zero of either sign or NaN: the numbers that are falsy. *)
Definition zero_or_nan (a : spec_float) : Prop :=
  (exists s, a = S754_zero s) \/ a = S754_nan.

End SpecialValues.

(** ** The ratio formulas on the reported values *)

Module ReportedValues.

Import JsNum Analyzer.
Local Open Scope float_scope.

(** The value a snapshot reports for a line of its income statement,
    read off the record: [None] when the statement, the line or its
    value is missing. *)
Definition reported_income (f : financials_t)
    (line : income_statement_t -> option datapoint) : option number :=
  match income_statement f with
  | Some statement =>
      match line statement with
      | Some point => value point
      | None => None
      end
  | None => None
  end.

(** The same for a line of the balance sheet. *)
Definition reported_balance (f : financials_t)
    (line : balance_sheet_t -> option datapoint) : option number :=
  match balance_sheet f with
  | Some sheet =>
      match line sheet with
      | Some point => value point
      | None => None
      end
  | None => None
  end.

(** The operand of a formula: the reported value, or the fallback when
    the value is missing, zero or NaN. *)
Definition operand (reported : option number) (fallback : number) : number :=
  match reported with
  | Some x => if isNaN x || (x =? 0) then fallback else x
  | None => fallback
  end.

(** The six formulas as the specification words them, on given operands:
    each ratio is the quotient (times 100 for the three percentages), a
    NaN result coerced to 0; equality is that of [===]. *)
Definition formulas_hold
    (revenue netIncome totalAssets currentAssets currentLiabilities
     totalLiabilities equity : number) (d : details_t) : Prop :=
  strict_eq (netProfitMargin d)
    (nan_to_zero (netIncome / revenue * 100)) = true /\
  strict_eq (returnOnAssets d)
    (nan_to_zero (netIncome / totalAssets * 100)) = true /\
  strict_eq (returnOnEquity d)
    (nan_to_zero (netIncome / equity * 100)) = true /\
  strict_eq (currentRatio d)
    (nan_to_zero (currentAssets / currentLiabilities)) = true /\
  strict_eq (debtToEquity d)
    (nan_to_zero (totalLiabilities / equity)) = true /\
  strict_eq (assetTurnover d)
    (nan_to_zero (revenue / totalAssets)) = true.

End ReportedValues.

(** ** More sample inputs *)

Module Samples.

Import JsNum JsString Analyzer Trade Server Dashboard.
Local Open Scope float_scope.

(** Financials with an income statement (revenue 1000, net income 150)
    and no balance sheet. *)
Definition no_balance_sheet_snapshot : financialData_t :=
  {| financials := Some
       {| income_statement :=
            Some {| revenues := dp 1000; net_income_loss := dp 150 |};
          balance_sheet := None |} |}.

(** The worked example with the revenue missing. *)
Definition no_revenue_snapshot : financialData_t :=
  snapshot None (dp 150) (dp 2000) (dp 500) (dp 200) (dp 300) (dp 1000).


(** Financials without a [financials] object. *)
Definition empty_financialData : financialData_t := {| financials := None |}.

(** Three records of a response: a ticker, a symbol with a dot, and a
    record without symbol. *)
Definition brk_b_sale : trade :=
  {| symbol := Some (js "BRK.B"); name := None;
     transactionCode := Some (js "S"); change := Some (-10);
     transactionPrice := Some 400; transactionDate := None |}.

Definition nameless_record : trade :=
  {| symbol := None; name := None; transactionCode := None; change := None;
     transactionPrice := None; transactionDate := None |}.

(** A response none of whose records passes the filter. *)
Definition foreign_response : axios_outcome transactions_body :=
  Fulfilled (BodyData [ElemTrade brk_b_sale; ElemTrade nameless_record]).

(** A response with one ticker among its records. *)
Definition mixed_response : axios_outcome transactions_body :=
  Fulfilled (BodyData [ElemTrade brk_b_sale; ElemTrade cheap_purchase]).

End Samples.

(** ** The browser side of the endpoints, the table refresh and the
       events of the detail view (public/app.js) *)

Module Browser.

Import JsNum JsString Analyzer Trade Server Dashboard.
Local Open Scope float_scope.

(** What [await fetch(url)] gives the script: it throws when the server
    is not reached, and returns the server's response otherwise. *)
Inductive fetch_outcome (A : Type) :=
| FetchRejected
| FetchResponse (response : http_response A).
Arguments FetchRejected {A}.
Arguments FetchResponse {A} response.

(** [response.ok]: the status is in the range 200 to 299. *)
Definition response_ok {A : Type} (r : http_response A) : bool :=
  (Z.leb 200 (status r) && Z.leb (status r) 299)%bool.

(** A number through [JSON.stringify] and back through [JSON.parse]: NaN
    and the infinities are written as [null], a zero of either sign is
    written as 0, and every other number is written in a form that
    parses back to itself.  A missing value stays missing. *)
Definition json_number (v : option number) : option number :=
  match v with
  | Some x =>
      if isNaN x || (x =? infinity) || (x =? neg_infinity) then None
      else if x =? 0 then Some 0
      else Some x
  | None => None
  end.

(** A value as it arrives in the browser after [res.json(value)] on the
    server and [response.json()] in the script.  Strings arrive as they
    were sent. *)
Class JsonValue (A : Type) := { json_transit : A -> A }.

#[export] Instance json_list (A : Type) `{JsonValue A} : JsonValue (list A) :=
  {| json_transit := map json_transit |}.

#[export] Instance json_trade : JsonValue trade :=
  {| json_transit := fun t =>
       {| symbol := symbol t;
          name := name t;
          transactionCode := transactionCode t;
          change := json_number (change t);
          transactionPrice := json_number (transactionPrice t);
          transactionDate := transactionDate t |} |}.

Definition json_datapoint (o : option datapoint) : option datapoint :=
  match o with
  | Some p => Some {| value := json_number (value p) |}
  | None => None
  end.

Definition json_financials (f : financials_t) : financials_t :=
  {| income_statement :=
       match income_statement f with
       | Some i =>
           Some {| revenues := json_datapoint (revenues i);
                   net_income_loss := json_datapoint (net_income_loss i) |}
       | None => None
       end;
     balance_sheet :=
       match balance_sheet f with
       | Some b =>
           Some {| assets := json_datapoint (assets b);
                   current_assets := json_datapoint (current_assets b);
                   current_liabilities :=
                     json_datapoint (current_liabilities b);
                   liabilities := json_datapoint (liabilities b);
                   equity := json_datapoint (equity b) |}
       | None => None
       end |}.

#[export] Instance json_financialData : JsonValue financialData_t :=
  {| json_transit := fun fd =>
       {| financials :=
            match financials fd with
            | Some f => Some (json_financials f)
            | None => None
            end |} |}.

(** [await response.json()] on an answer of the server, whose body is
    what the handler passed to [res.json] or to [res.send]: the value as
    it arrives, or [None] when parsing throws (a plain-text message of the
    server is no JSON, whether it was sent or, with status 204 or 304,
    left out). *)
Definition response_json {A : Type} `{JsonValue A} (r : http_response A)
  : option A :=
  match body r with
  | Json a => Some (json_transit a)
  | Text _ => None
  end.

(** GET /api/insider-trades: [res.json(insiderData)]. *)
Definition insider_trades_handler (st : state) : http_response (list trade) :=
  {| status := 200; body := Json (getTransactions st) |}.

(** An element of the price provider's series. *)
Record price_record := {
  close : option number;
  high : option number;
  low : option number;
  volume : option number
}.

#[export] Instance json_price_record : JsonValue price_record :=
  {| json_transit := fun p =>
       {| close := json_number (close p);
          high := json_number (high p);
          low := json_number (low p);
          volume := json_number (volume p) |} |}.

(** fetchTiingoData, from the outcome of the request to /api/tiingo;
    [None] is [null]. *)
Definition fetchTiingoData (o : fetch_outcome (list price_record))
  : option stockInfo_t :=
  match o with
  | FetchRejected => None
  | FetchResponse response =>
      if response_ok response then
        match response_json response with
        | Some (latestData :: _) =>
            Some {| si_price := close latestData;
                    si_high := high latestData;
                    si_low := low latestData;
                    si_volume := volume latestData |}
        | Some [] => None
        | None => None
        end
      else None
  end.

(** fetchFinancialData, from the outcome of the request to
    /api/polygon-financials. *)
Definition fetchFinancialData (o : fetch_outcome financialData_t)
  : option financialData_t :=
  match o with
  | FetchRejected => None
  | FetchResponse response =>
      if response_ok response then response_json response else None
  end.

#[local] Set Warnings "-inexact-float".

(** The three properties isRecommendedBuy reads from its argument, which
    its documentation declares as numbers. *)
Record stock_figures := {
  fig_price : number;
  fig_high : number;
  fig_volume : number
}.

(** isRecommendedBuy.  The literal 0.7 denotes the nearest binary64
    value, here as in the source. *)
Definition isRecommendedBuy (stockInfo : stock_figures) : bool :=
  le (fig_price stockInfo) 2 ||
  (lt (fig_price stockInfo) (0.7 * fig_high stockInfo) &&
   gt (fig_volume stockInfo) 100000).

(** The element of id [data]: the table with its body of rows, or, once
    its [innerText] has been assigned, a text without any table body. *)
Inductive data_table :=
| TableRows (rows : list row)
| TableText (text : string).

(** The table as the page is loaded. *)
Definition empty_table : data_table := TableRows [].

(** The text the [catch] block of fetchData writes. *)
Definition failure_text : data_table := TableText "Failed to load data.".

(** A fetch of the table that fails: the server is not reached, or its
    answer is no JSON. *)
Definition fetch_fails {A : Type} `{JsonValue A} (o : fetch_outcome A)
  : Prop :=
  match o with
  | FetchRejected => True
  | FetchResponse response => response_json response = None
  end.

(** displayData on the page: it looks up the table body, empties it and
    appends the rows; [None] when the body is not there any more (the
    assignment to [tableBody.innerHTML] throws on [undefined]). *)
Definition displayData_on (tbl : data_table) (data : list trade)
  : option data_table :=
  match tbl with
  | TableRows _ => Some (TableRows (displayData data))
  | TableText _ => None
  end.

(** fetchData: the request, the parsing and displayData are in one [try]
    block, whose [catch] writes the failure text. *)
Definition fetchData (tbl : data_table) (o : fetch_outcome (list trade))
  : data_table :=
  match o with
  | FetchRejected => TableText "Failed to load data."
  | FetchResponse response =>
      match response_json response with
      | Some data =>
          match displayData_on tbl data with
          | Some tbl' => tbl'
          | None => TableText "Failed to load data."
          end
      | None => TableText "Failed to load data."
      end
  end.

(** The table after the fetches of the page (the one at load and those
    of the interval), in the order they settle. *)
Definition refreshes (outcomes : list (fetch_outcome (list trade)))
  : data_table :=
  fold_left fetchData outcomes empty_table.

(** The two handlers that close the detail view: both hide it, destroy
    the chart if there is one and reset [financialChartInstance]. *)
Definition closeModal (pg : page) : page :=
  {| modal_display := "none";
     modal_title := modal_title pg;
     modal_content := modal_content pg;
     financialChartInstance := None;
     console_warn := console_warn pg |}.

(** The events of the detail view: a row click whose two fetches have
    settled, a click on the close button, and a click somewhere in the
    window, on the overlay of the detail view itself or not. *)
Inductive event :=
| RowClick (company : jsstring) (stockInfo : option stockInfo_t)
           (financialData : option financialData_t)
| CloseClick
| WindowClick (on_modal : bool).

Definition handle (pg : page) (ev : event) : page :=
  match ev with
  | RowClick company stockInfo financialData =>
      fst (rowClick company stockInfo financialData pg)
  | CloseClick => closeModal pg
  | WindowClick true => closeModal pg
  | WindowClick false => pg
  end.

Definition browse (events : list event) : page :=
  fold_left handle events closed_page.

(** What holds of the page after any events: the view is hidden or
    displayed; a chart exists only while the view is displayed, and has
    five values; a displayed view has a content with six metrics; the
    warnings written are all the one of analyzeFinancialData, never the
    one of showModal. *)
Definition detail_view_invariant (pg : page) : Prop :=
  (modal_display pg = "none"%string \/ modal_display pg = "flex"%string) /\
  (forall data, financialChartInstance pg = Some data ->
     modal_display pg = "flex"%string /\ List.length data = 5%nat) /\
  (modal_display pg = "flex"%string ->
     exists c, modal_content pg = Some c /\
               List.length (shown_metrics c) = 6%nat) /\
  Forall
    (fun line =>
       line = "Incomplete financial data. Analysis may be limited."%string)
    (console_warn pg).

End Browser.

Import JsNum JsString RegExp Analyzer Trade Server Dashboard.
Import SpecialValues ReportedValues Samples Browser.



(** * Properties *)

(** ** Binary64 facts, from the specification of the primitive floats *)

Section FloatFacts.

Local Open Scope float_scope.

Lemma SFcompare_swap (a b : spec_float) :
  SFcompare b a = option_map CompOpp (SFcompare a b).
Proof.
  destruct a as [[]|[]| |[] ma ea], b as [[]|[]| |[] mb eb]; simpl;
    try reflexivity.
  all: rewrite (Z.compare_antisym eb ea); destruct (Z.compare eb ea); simpl;
    try reflexivity.
  all: rewrite (Pos.compare_cont_antisym _ _ Eq); simpl; try reflexivity.
  rewrite CompOpp_involutive; reflexivity.
Qed.

Lemma SFcompare_refl (a : spec_float) :
  a <> S754_nan -> SFcompare a a = Some Eq.
Proof.
  destruct a as [[]|[]| |[] m e]; simpl; intros H; try reflexivity;
    try congruence.
  all: rewrite Z.compare_refl.
  all: change (Pos.compare_cont Eq m m) with (Pos.compare m m).
  all: rewrite Pos.compare_refl; reflexivity.
Qed.

Lemma eqb_sym (x y : float) : (x =? y) = (y =? x).
Proof.
  rewrite !eqb_spec. unfold SFeqb.
  rewrite (SFcompare_swap (Prim2SF x) (Prim2SF y)).
  destruct (SFcompare (Prim2SF x) (Prim2SF y)) as [[]|]; reflexivity.
Qed.

Lemma eqb_not_ltb (x y : float) : (x =? y) = true -> (y <? x) = false.
Proof.
  rewrite eqb_spec, ltb_spec. unfold SFeqb, SFltb.
  rewrite (SFcompare_swap (Prim2SF x) (Prim2SF y)).
  destruct (SFcompare (Prim2SF x) (Prim2SF y)) as [[]|]; simpl;
    congruence.
Qed.

Lemma isNaN_spec (x : float) : isNaN x = true <-> Prim2SF x = S754_nan.
Proof.
  unfold isNaN. rewrite eqb_spec. unfold SFeqb. split.
  - intros H. destruct (Prim2SF x) as [[]|[]| |[] m e] eqn:E; try reflexivity.
    all: rewrite SFcompare_refl in H by congruence; discriminate.
  - intros ->. reflexivity.
Qed.














End FloatFacts.

(** ** Truthiness and the fallback [x || d] *)

Section Fallback.

Local Open Scope float_scope.

Lemma truthy_not_NaN (x : number) : truthy x = true -> isNaN x = false.
Proof.
  unfold truthy. intros H. apply negb_true_iff, orb_false_iff in H.
  apply H.
Qed.

Lemma or_default_truthy (x d : number) :
  truthy x = true -> or_default x d = x.
Proof. unfold or_default. intros ->. reflexivity. Qed.

Lemma or_default_falsy (x d : number) :
  truthy x = false -> or_default x d = d.
Proof. unfold or_default. intros ->. reflexivity. Qed.


(** The result of [x || 0] is never NaN. *)
Lemma or_default_zero_not_NaN (x : number) : isNaN (or_default x 0) = false.
Proof.
  unfold or_default. destruct (truthy x) eqn:T.
  - apply truthy_not_NaN, T.
  - reflexivity.
Qed.





(** The fallback of the source and the coercion of the specification
    give the same number (they differ in the sign of a zero result only,
    which [===] does not tell apart). *)
Lemma or_default_is_nan_to_zero (x : number) :
  strict_eq (or_default x 0) (nan_to_zero x) = true.
Proof.
  unfold or_default, nan_to_zero, strict_eq.
  destruct (truthy x) eqn:T.
  - rewrite (truthy_not_NaN x T).
    apply truthy_not_NaN in T. unfold isNaN in T.
    apply negb_false_iff in T. exact T.
  - destruct (isNaN x) eqn:N; [reflexivity|].
    unfold truthy in T. rewrite N in T. simpl in T.
    apply negb_false_iff in T. rewrite eqb_sym. exact T.
Qed.

Lemma or_default_exact (x : number) :
  truthy x = true -> or_default x 0 = nan_to_zero x.
Proof.
  intros T. rewrite (or_default_truthy x 0 T). unfold nan_to_zero.
  rewrite (truthy_not_NaN x T). reflexivity.
Qed.

End Fallback.

(** ** The ratio analyzer *)

Section AnalyzerProperties.

Local Open Scope float_scope.

Lemma analyze_present (fd : financialData_t) (f : financials_t) :
  financials fd = Some f ->
  analyzeFinancialData fd =
  {| recommendation := recommend (ratios (extract f));
     details := Some (ratios (extract f)) |}.
Proof. unfold analyzeFinancialData. intros ->. reflexivity. Qed.

Lemma analyze_absent (fd : financialData_t) :
  financials fd = None ->
  analyzeFinancialData fd = {| recommendation := HOLD; details := None |}.
Proof. unfold analyzeFinancialData. intros ->. reflexivity. Qed.

Lemma recommend_cases (d : details_t) :
  (recommend d = BUY <-> buy_condition d = true) /\
  (recommend d = SELL <-> buy_condition d = false /\ sell_condition d = true) /\
  (recommend d = HOLD <-> buy_condition d = false /\ sell_condition d = false).
Proof.
  unfold recommend.
  destruct (buy_condition d), (sell_condition d);
    repeat split; intros; try discriminate; try reflexivity;
    match goal with H : _ /\ _ |- _ => destruct H; discriminate end.
Qed.

Lemma buy_condition_spec (d : details_t) :
  buy_condition d = true <->
  gt (netProfitMargin d) 10 = true /\ gt (returnOnAssets d) 5 = true /\
  gt (returnOnEquity d) 10 = true /\ gt (currentRatio d) 1.5 = true /\
  lt (debtToEquity d) 2 = true.
Proof.
  unfold buy_condition. rewrite !andb_true_iff. tauto.
Qed.

Lemma sell_condition_spec (d : details_t) :
  sell_condition d = true <->
  lt (netProfitMargin d) 0 = true \/ lt (returnOnAssets d) 1 = true \/
  lt (currentRatio d) 1 = true.
Proof.
  unfold sell_condition. rewrite !orb_true_iff. tauto.
Qed.

(** C1. For every input, analyzeFinancialData recommends BUY exactly when
    netProfitMargin > 10, returnOnAssets > 5, returnOnEquity > 10,
    currentRatio > 1.5 and debtToEquity < 2 (all strict); otherwise SELL
    exactly when netProfitMargin < 0 or returnOnAssets < 1 or
    currentRatio < 1; otherwise HOLD.  A netProfitMargin of exactly 10
    never gives BUY.  The metrics are those of the returned report
    ([undefined] when there are no financials, every comparison false). *)
Theorem analyze_recommendation (fd : financialData_t) :
  let r := analyzeFinancialData fd in
  let buy :=
    gt_u (metric netProfitMargin r) 10 = true /\
    gt_u (metric returnOnAssets r) 5 = true /\
    gt_u (metric returnOnEquity r) 10 = true /\
    gt_u (metric currentRatio r) 1.5 = true /\
    lt_u (metric debtToEquity r) 2 = true in
  let sell :=
    lt_u (metric netProfitMargin r) 0 = true \/
    lt_u (metric returnOnAssets r) 1 = true \/
    lt_u (metric currentRatio r) 1 = true in
  (recommendation r = BUY <-> buy) /\
  (recommendation r = SELL <-> ~ buy /\ sell) /\
  (recommendation r = HOLD <-> ~ buy /\ ~ sell) /\
  (strict_eq_u (metric netProfitMargin r) 10 = true ->
   recommendation r <> BUY).
Proof.
  unfold analyzeFinancialData.
  destruct (financials fd) as [f|]; cbv zeta; unfold metric;
    cbn [details recommendation option_map gt_u lt_u strict_eq_u].
  - set (d := ratios (extract f)).
    destruct (recommend_cases d) as (HB & HS & HH).
    pose proof (buy_condition_spec d) as B.
    pose proof (sell_condition_spec d) as S.
    assert (NB : buy_condition d = false <-> ~ buy_condition d = true)
      by (destruct (buy_condition d); split; congruence).
    assert (NS : sell_condition d = false <-> ~ sell_condition d = true)
      by (destruct (sell_condition d); split; congruence).
    split; [|split; [|split]].
    + rewrite HB. exact B.
    + rewrite HS, NB, B, S. reflexivity.
    + rewrite HH, NB, NS, B, S. reflexivity.
    + intros E H. apply HB, B in H. destruct H as [H _].
      unfold gt in H. unfold strict_eq in E.
      rewrite (eqb_not_ltb (netProfitMargin d) 10 E) in H. discriminate.
  - split; [|split; [|split]].
    + split; [discriminate|]. intros (H & _). discriminate.
    + split; [discriminate|]. intros (_ & [H|[H|H]]); discriminate.
    + split; [|reflexivity]. intros _. split.
      * intros (H & _). discriminate.
      * intros [H|[H|H]]; discriminate.
    + discriminate.
Qed.

(** A snapshot whose margin is exactly 10 is not a BUY. *)
Lemma analyze_recommendation_witness :
  metric netProfitMargin (analyzeFinancialData margin_ten_snapshot) = Some 10
  /\ recommendation (analyzeFinancialData margin_ten_snapshot) <> BUY.
Proof.
  split; [reflexivity|].
  apply (analyze_recommendation margin_ten_snapshot). reflexivity.
Defined.

(** The worked examples: the first snapshot is a BUY with margin 15,
    return on assets 7.5, return on equity 15, current ratio 2.5 and
    asset turnover 0.5; a loss is a SELL; a margin of 10 is a HOLD. *)
Example analyze_examples :
  analyzeFinancialData healthy_snapshot =
  {| recommendation := BUY;
     details := Some {| netProfitMargin := 15; returnOnAssets := 7.5;
                        returnOnEquity := 15; currentRatio := 2.5;
                        debtToEquity := 300 / 1000;
                        assetTurnover := 0.5 |} |} /\
  recommendation (analyzeFinancialData loss_snapshot) = SELL /\
  recommendation (analyzeFinancialData margin_ten_snapshot) = HOLD.
Proof. repeat split; reflexivity. Qed.

(** The six ratios, on the constants the source extracts. *)
Lemma ratios_formulas (fd : financialData_t) (f : financials_t) :
  financials fd = Some f ->
  let e := extract f in
  exists d : details_t,
    details (analyzeFinancialData fd) = Some d /\
    strict_eq (netProfitMargin d)
      (nan_to_zero (x_netIncome e / x_revenues e * 100)) = true /\
    strict_eq (returnOnAssets d)
      (nan_to_zero (x_netIncome e / x_totalAssets e * 100)) = true /\
    strict_eq (returnOnEquity d)
      (nan_to_zero (x_netIncome e / x_equity e * 100)) = true /\
    strict_eq (currentRatio d)
      (nan_to_zero (x_currentAssets e / x_currentLiabilities e)) = true /\
    strict_eq (debtToEquity d)
      (nan_to_zero (x_totalLiabilities e / x_equity e)) = true /\
    strict_eq (assetTurnover d)
      (nan_to_zero (x_revenues e / x_totalAssets e)) = true /\
    (x_revenues e = 0 -> x_netIncome e = 0 ->
     netProfitMargin d = 0 /\ isNaN (netProfitMargin d) = false).
Proof.
  intros Hf e. exists (ratios e). split.
  - rewrite (analyze_present fd f Hf). reflexivity.
  - unfold ratios; cbn [netProfitMargin returnOnAssets returnOnEquity
                        currentRatio debtToEquity assetTurnover].
    repeat (split; [apply or_default_is_nan_to_zero|]).
    intros -> ->. split; reflexivity.
Qed.

(** The fallback of the source is the operand of the amended formulas. *)
Lemma operand_opt_or (v : option number) (d : number) :
  operand v d = opt_or v d.
Proof.
  destruct v as [x|]; [|reflexivity]. simpl. unfold or_default, truthy.
  destruct (isNaN x || (x =? 0)); reflexivity.
Qed.

Lemma operand_usable (x d : number) :
  truthy x = true -> operand (Some x) d = x.
Proof.
  intros T. rewrite operand_opt_or. simpl. apply or_default_truthy, T.
Qed.

Lemma reported_income_chain (f : financials_t)
    (line : income_statement_t -> option datapoint) :
  reported_income f line = chain (income_statement f) line.
Proof.
  unfold reported_income, chain.
  destruct (income_statement f) as [i|]; [|reflexivity].
  destruct (line i); reflexivity.
Qed.

Lemma reported_balance_chain (f : financials_t)
    (line : balance_sheet_t -> option datapoint) :
  reported_balance f line = chain (balance_sheet f) line.
Proof.
  unfold reported_balance, chain.
  destruct (balance_sheet f) as [b|]; [|reflexivity].
  destruct (line b); reflexivity.
Qed.

(** C2, as stated, fails on the reported values: with equity reported as
    0 (net income 7, liabilities 300) the formula netIncome / equity * 100
    is Infinity, and so is totalLiabilities / equity, while the code
    returns 700 and 300. *)
Lemma formulas_on_reported_values_counterexample :
  exists d : details_t,
    details (analyzeFinancialData zero_equity_snapshot) = Some d /\
    returnOnEquity d = 700 /\
    nan_to_zero (7 / 0 * 100) = infinity /\
    debtToEquity d = 300 /\
    nan_to_zero (300 / 0) = infinity /\
    ~ formulas_hold 1000 7 2000 500 0 300 0 d.
Proof.
  eexists. split; [reflexivity|]. repeat split.
  intros (_ & _ & H & _). vm_compute in H. discriminate.
Qed.

(** C2, amended. With a financials object present, the six ratios are
    netIncome / revenue * 100, netIncome / totalAssets * 100,
    netIncome / equity * 100, currentAssets / currentLiabilities,
    totalLiabilities / equity and revenue / totalAssets, a NaN result
    coerced to 0, where each operand is the value the snapshot reports,
    read as 0 when it is missing, zero or NaN, and, for the two
    denominators currentLiabilities and equity, read as 1 when it is
    missing, zero or NaN.  When all seven values are reported and neither
    zero nor NaN, the operands are the reported values themselves.  With
    revenue 0 and netIncome 0 the margin is 0, not NaN. *)
Theorem ratios_of_reported_values :
  (forall (fd : financialData_t) (f : financials_t),
     financials fd = Some f ->
     let revenue := operand (reported_income f revenues) 0 in
     let netIncome := operand (reported_income f net_income_loss) 0 in
     let totalAssets := operand (reported_balance f assets) 0 in
     let currentAssets := operand (reported_balance f current_assets) 0 in
     let currentLiabilities :=
       operand (reported_balance f current_liabilities) 1 in
     let totalLiabilities := operand (reported_balance f liabilities) 0 in
     let equity := operand (reported_balance f equity) 1 in
     exists d : details_t,
       details (analyzeFinancialData fd) = Some d /\
       formulas_hold revenue netIncome totalAssets currentAssets
                     currentLiabilities totalLiabilities equity d /\
       (revenue = 0 -> netIncome = 0 ->
        netProfitMargin d = 0 /\ isNaN (netProfitMargin d) = false)) /\
  (forall rev ni ta ca cl tl eq : number,
     truthy rev = true -> truthy ni = true -> truthy ta = true ->
     truthy ca = true -> truthy cl = true -> truthy tl = true ->
     truthy eq = true ->
     exists d : details_t,
       details (analyzeFinancialData
                  (snapshot (dp rev) (dp ni) (dp ta) (dp ca) (dp cl)
                            (dp tl) (dp eq))) = Some d /\
       formulas_hold rev ni ta ca cl tl eq d).
Proof.
  assert (A : forall (fd : financialData_t) (f : financials_t),
     financials fd = Some f ->
     exists d : details_t,
       details (analyzeFinancialData fd) = Some d /\
       formulas_hold
         (operand (reported_income f revenues) 0)
         (operand (reported_income f net_income_loss) 0)
         (operand (reported_balance f assets) 0)
         (operand (reported_balance f current_assets) 0)
         (operand (reported_balance f current_liabilities) 1)
         (operand (reported_balance f liabilities) 0)
         (operand (reported_balance f equity) 1) d /\
       (operand (reported_income f revenues) 0 = 0 ->
        operand (reported_income f net_income_loss) 0 = 0 ->
        netProfitMargin d = 0 /\ isNaN (netProfitMargin d) = false)).
  { intros fd f Hf.
    destruct (ratios_formulas fd f Hf)
      as (d & Hd & H1 & H2 & H3 & H4 & H5 & H6 & H0).
    exists d. split; [exact Hd|].
    rewrite !operand_opt_or, !reported_income_chain, !reported_balance_chain.
    split; [|exact H0].
    unfold formulas_hold. repeat split; assumption. }
  split.
  - intros fd f Hf. cbv zeta. apply (A fd f Hf).
  - intros rev ni ta ca cl tl eq Trev Tni Tta Tca Tcl Ttl Teq.
    destruct (A (snapshot (dp rev) (dp ni) (dp ta) (dp ca) (dp cl)
                          (dp tl) (dp eq)) _ eq_refl)
      as (d & Hd & HF & _).
    exists d. split; [exact Hd|].
    cbn [reported_income reported_balance income_statement balance_sheet
         revenues net_income_loss assets current_assets current_liabilities
         liabilities equity dp value] in HF.
    rewrite !operand_usable in HF by assumption. exact HF.
Qed.

(** The worked example: revenue 1000, net income 150, assets 2000, current
    assets 500, current liabilities 200, liabilities 300, equity 1000. *)
Lemma ratios_of_reported_values_witness :
  exists d : details_t,
    details (analyzeFinancialData healthy_snapshot) = Some d /\
    formulas_hold 1000 150 2000 500 200 300 1000 d /\
    netProfitMargin d = 15 /\ returnOnAssets d = 7.5 /\
    currentRatio d = 2.5.
Proof.
  destruct (proj2 ratios_of_reported_values 1000 150 2000 500 200 300 1000
              eq_refl eq_refl eq_refl eq_refl eq_refl eq_refl eq_refl)
    as (d & Hd & HF).
  exists d. split; [exact Hd|]. split; [exact HF|].
  change (analyzeFinancialData
            (snapshot (dp 1000) (dp 150) (dp 2000) (dp 500) (dp 200)
                      (dp 300) (dp 1000)))
    with (analyzeFinancialData healthy_snapshot) in Hd.
  vm_compute in Hd. injection Hd as <-. repeat split.
Defined.




End AnalyzerProperties.

(** ** The symbol filter *)

Section SymbolFilter.

Lemma in_range_spec (lo hi c : code_unit) :
  in_range lo hi c = true <-> (lo <= c <= hi)%N.
Proof.
  unfold in_range. rewrite andb_true_iff, !N.leb_le. reflexivity.
Qed.

Lemma forallb_uppercase (s : jsstring) :
  forallb (in_range 65%N 90%N) s = true <-> Forall uppercase s.
Proof.
  rewrite forallb_forall, Forall_forall. unfold uppercase.
  split; intros H c Hc; apply in_range_spec, H, Hc.
Qed.

(** After the first letter, the greedy loop of [[A-Z]+] followed by [$]
    succeeds exactly when only letters remain. *)
Lemma plus_loop_then_end (lo hi : code_unit) (s : jsstring) :
  forall i : nat,
    plus_loop lo hi (matches [AssertEnd]) i s = forallb (in_range lo hi) s.
Proof.
  induction s as [|c s IH]; intros i.
  - reflexivity.
  - cbn [plus_loop forallb]. rewrite IH. simpl. apply orb_false_r.
Qed.

Lemma matches_usEquityPattern (i : nat) (s : jsstring) :
  matches usEquityPattern i s =
  Nat.eqb i 0 && truthy_str s && forallb (in_range 65%N 90%N) s.
Proof.
  unfold usEquityPattern.
  destruct s as [|c s].
  - simpl. rewrite andb_false_r. reflexivity.
  - change (matches [AssertStart; ClassPlus 65%N 90%N; AssertEnd] i (c :: s))
      with (Nat.eqb i 0 &&
            (in_range 65%N 90%N c &&
             plus_loop 65%N 90%N (matches [AssertEnd]) (S i) s)).
    rewrite plus_loop_then_end. simpl.
    rewrite andb_true_r. reflexivity.
Qed.

(** The assertion [^] fails at every index but the first. *)
Lemma search_usEquityPattern_later (s : jsstring) :
  forall i : nat, search usEquityPattern (S i) s = false.
Proof.
  induction s as [|c s IH]; intros i; cbn [search];
    rewrite matches_usEquityPattern; simpl.
  - reflexivity.
  - apply IH.
Qed.

Lemma test_usEquityPattern (s : jsstring) :
  test usEquityPattern (Some s) =
  truthy_str s && forallb (in_range 65%N 90%N) s.
Proof.
  unfold test. cbn [toString].
  destruct s as [|c s]; cbn [search]; rewrite matches_usEquityPattern.
  - reflexivity.
  - rewrite search_usEquityPattern_later. simpl. apply orb_false_r.
Qed.

Lemma isUsEquity_ticker (s : jsstring) :
  isUsEquity (Some s) = true <-> us_equity_ticker s.
Proof.
  unfold isUsEquity, us_equity_ticker. rewrite test_usEquityPattern.
  rewrite andb_true_iff, forallb_uppercase.
  destruct s as [|c s]; simpl; split; intros [H1 H2]; split;
    congruence || assumption || reflexivity.
Qed.

(** C4. For every string, isUsEquity is true exactly when the string is
    not empty and consists of uppercase letters A to Z only: AAPL is
    accepted; BRK.B, 7203 and the empty string are not. *)
Theorem isUsEquity_spec :
  (forall s : jsstring,
     isUsEquity (Some s) = true <-> s <> [] /\ Forall uppercase s) /\
  isUsEquity (Some (js "AAPL")) = true /\
  isUsEquity (Some (js "BRK.B")) = false /\
  isUsEquity (Some (js "7203")) = false /\
  isUsEquity (Some (js "")) = false.
Proof.
  split; [exact isUsEquity_ticker|].
  repeat split; reflexivity.
Qed.

(** A symbol that is missing is converted to the string "undefined",
    which the pattern rejects. *)
Lemma isUsEquity_undefined : isUsEquity None = false.
Proof. reflexivity. Qed.

Lemma isUsEquity_symbol (v : option jsstring) :
  isUsEquity v = true -> exists s, v = Some s /\ us_equity_ticker s.
Proof.
  destruct v as [s|]; intros H.
  - exists s. split; [reflexivity|]. apply isUsEquity_ticker, H.
  - rewrite isUsEquity_undefined in H. discriminate.
Qed.

End SymbolFilter.

(** ** The transaction store *)

Section Store.

Lemma filterUsEquities_records (l : list element) :
  match records_of l with
  | Some ts => filterUsEquities l = inr (us_equities ts)
  | None => exists e, filterUsEquities l = inl e
  end.
Proof.
  induction l as [|[|t] l IH]; cbn [records_of filterUsEquities].
  - reflexivity.
  - eexists. reflexivity.
  - destruct (records_of l) as [ts|].
    + rewrite IH. unfold us_equities. simpl.
      destruct (isUsEquity (symbol t)); reflexivity.
    + destruct IH as [e IH]. exists e. rewrite IH. reflexivity.
Qed.

Lemma records_of_null (l : list element) :
  In ElemNull l -> records_of l = None.
Proof.
  induction l as [|[|t] l IH]; simpl; intros H.
  - contradiction.
  - reflexivity.
  - destruct H as [H|H]; [discriminate|]. rewrite (IH H). reflexivity.
Qed.

Lemma fetchAndFilter_complete (o : axios_outcome transactions_body) :
  match complete_response o with
  | Some ts => fetchAndFilter o = inr (us_equities ts)
  | None => exists e, fetchAndFilter o = inl e
  end.
Proof.
  destruct o as [[| |l]|e]; simpl; try (eexists; reflexivity).
  apply filterUsEquities_records.
Qed.

Lemma refresh_failure_incomplete (o : axios_outcome transactions_body) :
  refresh_failure o -> complete_response o = None.
Proof.
  intros H. destruct H; simpl; try reflexivity.
  apply records_of_null. assumption.
Qed.

(** C5. A refresh that fails (network error, answer outside 2xx, or
    malformed body) leaves the snapshot as it was: the failure is logged
    on the error console and nothing else changes. *)
Theorem failed_refresh_keeps_snapshot (st : state)
    (o : axios_outcome transactions_body) :
  refresh_failure o ->
  let st' := fetchInsiderTradingData st o in
  insiderData st' = insiderData st /\
  getTransactions st' = getTransactions st /\
  console_log st' = console_log st /\
  exists msg : string,
    console_error st' =
    console_error st ++
    [("Error fetching insider trading data:"%string, msg)].
Proof.
  intros F. apply refresh_failure_incomplete in F.
  pose proof (fetchAndFilter_complete o) as H. rewrite F in H.
  destruct H as [e He].
  cbv zeta. unfold fetchInsiderTradingData, getTransactions. rewrite He.
  cbn [insiderData console_log console_error].
  repeat split. exists (message_of e). reflexivity.
Qed.

(** A store holding one record, and a refresh answered with status 503. *)
Lemma failed_refresh_keeps_snapshot_witness :
  insiderData (fetchInsiderTradingData one_record_state unavailable_503)
  = [aapl_purchase].
Proof.
  apply (failed_refresh_keeps_snapshot one_record_state unavailable_503).
  apply (non_2xx _ 503%Z); [reflexivity | lia].
Defined.

Lemma run_snoc (outcomes : list (axios_outcome transactions_body))
    (o : axios_outcome transactions_body) :
  run (outcomes ++ [o]) = fetchInsiderTradingData (run outcomes) o.
Proof. unfold run. rewrite fold_left_app. reflexivity. Qed.

Lemma last_complete_snoc (outcomes : list (axios_outcome transactions_body))
    (o : axios_outcome transactions_body) :
  last_complete (outcomes ++ [o]) =
  match complete_response o with
  | Some ts => Some ts
  | None => last_complete outcomes
  end.
Proof. unfold last_complete. rewrite fold_left_app. reflexivity. Qed.

Lemma last_complete_in (outcomes : list (axios_outcome transactions_body))
    (ts : list trade) :
  last_complete outcomes = Some ts ->
  exists o, In o outcomes /\ complete_response o = Some ts.
Proof.
  induction outcomes as [|o outcomes IH] using rev_ind.
  - discriminate.
  - rewrite last_complete_snoc. intros H.
    destruct (complete_response o) as [ts'|] eqn:E.
    + exists o. split; [apply in_or_app; right; left; reflexivity|].
      congruence.
    + destruct (IH H) as (o' & Hin & Ho'). exists o'.
      split; [apply in_or_app; left; exact Hin | exact Ho'].
Qed.

(** The store after any run: empty while no response was complete, then
    the filtered records of the last complete response. *)
Lemma run_insiderData (outcomes : list (axios_outcome transactions_body)) :
  insiderData (run outcomes) =
  match last_complete outcomes with
  | Some ts => us_equities ts
  | None => []
  end.
Proof.
  induction outcomes as [|o outcomes IH] using rev_ind.
  - reflexivity.
  - rewrite run_snoc, last_complete_snoc.
    pose proof (fetchAndFilter_complete o) as H.
    unfold fetchInsiderTradingData.
    destruct (complete_response o) as [ts|].
    + rewrite H. reflexivity.
    + destruct H as [e ->]. exact IH.
Qed.

Lemma us_equities_tickers (ts : list trade) :
  Forall (fun t => exists s, symbol t = Some s /\ us_equity_ticker s)
         (us_equities ts).
Proof.
  apply Forall_forall. intros t Ht. unfold us_equities in Ht.
  apply filter_In in Ht. apply isUsEquity_symbol, Ht.
Qed.

(** C6, as stated, fails before the first complete response: when the
    first refresh does not reach the provider, the server serves the
    empty list, which is the filtered output of no response received. *)
Lemma served_from_one_response_counterexample :
  getTransactions (run [connection_refused]) = [] /\
  ~ served_from_one_response [connection_refused].
Proof.
  split; [reflexivity|].
  intros (o & ts & Hin & Hc & _).
  destruct Hin as [<-|[]]. discriminate.
Qed.

(** C6, amended. In every reachable state the snapshot served by
    getTransactions is the initial empty list as long as no refresh has
    succeeded, and from then on the output of filtering one complete
    provider response (that of the last refresh that succeeded) by
    isUsEquity on the symbol, in the response's order; every record served
    has a symbol of one or more uppercase letters. *)
Theorem snapshot_of_one_response
    (outcomes : list (axios_outcome transactions_body)) :
  match last_complete outcomes with
  | None => getTransactions (run outcomes) = []
  | Some ts =>
      getTransactions (run outcomes) =
        filter (fun t => isUsEquity (symbol t)) ts /\
      exists o, In o outcomes /\ complete_response o = Some ts
  end /\
  Forall (fun t => exists s, symbol t = Some s /\ s <> [] /\ Forall uppercase s)
         (getTransactions (run outcomes)).
Proof.
  unfold getTransactions. rewrite run_insiderData.
  destruct (last_complete outcomes) as [ts|] eqn:L.
  - split; [split|].
    + reflexivity.
    + apply last_complete_in, L.
    + apply us_equities_tickers.
  - split; [reflexivity | constructor].
Qed.

End Store.

(** ** The forwarding endpoints *)

Section Proxy.

(** The price endpoint answers a provider error with the provider's own
    status, and with 500 when the provider gave none. *)
Lemma tiingo_handler_propagates (P : Type) (symbol : string)
    (e : axios_error) :
  status (tiingo_handler (P := P) symbol (Rejected e)) =
  match response_status e with
  | Some c => if Z.eqb c 0 then 500%Z else c
  | None => 500%Z
  end.
Proof. reflexivity. Qed.

Lemma tiingo_handler_status (P : Type) (symbol : string)
    (e : axios_error) (c : Z) :
  response_status e = Some c -> c <> 0%Z ->
  status (tiingo_handler (P := P) symbol (Rejected e)) = c.
Proof.
  intros H Hc. rewrite tiingo_handler_propagates, H.
  destruct (Z.eqb_spec c 0); [contradiction | reflexivity].
Qed.

(** C8, on the code. The financials endpoint answers every provider error
    with status 500: a provider answer of 429 (or any other status) is
    not carried over, while the price endpoint carries it over. *)
Theorem polygon_financials_handler_status_500 :
  (forall e : axios_error,
     status (polygon_financials_handler (Rejected e)) = 500%Z) /\
  status (polygon_financials_handler (Rejected too_many_requests)) = 500%Z /\
  status (polygon_financials_handler (Rejected too_many_requests)) <> 429%Z /\
  status (tiingo_handler (P := unit) "ABC" (Rejected too_many_requests))
  = 429%Z.
Proof.
  split; [reflexivity|]. repeat split. discriminate.
Qed.

End Proxy.

(** ** The dashboard *)

Section DashboardProperties.

Local Open Scope float_scope.

Lemma price_truthy (t : trade) (p : number) :
  price t = Some p -> truthy p = true.
Proof.
  unfold price, parseFloat. destruct (transactionPrice t) as [x|];
    [|discriminate].
  destruct (truthy x) eqn:T; [|discriminate].
  intros H. injection H as <-. exact T.
Qed.

(** C3, as stated, fails: with price 10 and share delta -5 the trade value
    is -50, not 10 * |-5| = 50. *)
Lemma tradeValue_abs_counterexample :
  price sale_of_five = Some 10 /\
  shares sale_of_five = -5 /\
  tradeValue sale_of_five = -50 /\
  tradeValue_shown (render_row sale_of_five) = Some (CDollarLocale (-50)) /\
  strict_eq (tradeValue sale_of_five) (10 * abs (-5)) = false /\
  tradeValue sale_of_five <> 10 * abs (-5).
Proof.
  repeat split; try reflexivity.
  intros H. apply (f_equal (fun x => x <? 0)) in H.
  vm_compute in H. discriminate.
Qed.

(** C3, amended. When the price is present and the share delta is not
    zero, the trade value is price * share delta, with the sign of the
    delta (price 10 and delta -5 give -50), and it is shown as currency
    unless the product is zero; when the price is null the trade value is
    0 and both the price and the trade value are shown as "N/A". *)
Theorem tradeValue_signed (t : trade) :
  (forall p : number,
     price t = Some p -> truthy (shares t) = true ->
     tradeValue t = p * shares t /\
     tradeValue_shown (render_row t) =
       Some (if truthy (p * shares t) then CDollarLocale (p * shares t)
             else CText (js "N/A"))) /\
  (price t = None ->
   tradeValue t = 0 /\
   tradeValue_shown (render_row t) = Some (CText (js "N/A")) /\
   price_cell t = CText (js "N/A")).
Proof.
  split.
  - intros p Hp Hs. pose proof (price_truthy t p Hp) as Tp.
    assert (E : tradeValue t = p * shares t).
    { unfold tradeValue. rewrite Hp, Tp, Hs. reflexivity. }
    split; [exact E|].
    unfold tradeValue_shown, render_row; cbn [row_cells nth_error].
    unfold tradeValue_cell. rewrite E.
    destruct (truthy (p * shares t)); reflexivity.
  - intros Hp.
    unfold tradeValue_shown, render_row; cbn [row_cells nth_error].
    unfold tradeValue_cell, price_cell, tradeValue.
    rewrite Hp. repeat split; reflexivity.
Qed.

(** Price 10 and share delta -5: the trade value is -50. *)
Lemma tradeValue_signed_witness :
  tradeValue sale_of_five = -50 /\
  tradeValue_shown (render_row sale_of_five) = Some (CDollarLocale (-50)).
Proof.
  destruct (tradeValue_signed sale_of_five) as [H _].
  destruct (H 10 eq_refl eq_refl) as [H1 H2].
  rewrite H1, H2. split; reflexivity.
Defined.

(** The style of a purchase with a price, and of the other codes. *)
Lemma classList_priced (t : trade) (p : number) :
  eqb_str (transactionType t) (js "P") = true -> price t = Some p ->
  classList t =
  if le p 2 then ["highlight-green-bold"%string]
  else ["highlight-green"%string].
Proof. unfold classList. intros -> ->. reflexivity. Qed.

Lemma classList_other (t : trade) :
  eqb_str (transactionType t) (js "P") = false -> classList t = [].
Proof. unfold classList. intros ->. reflexivity. Qed.

Lemma classList_cheap_purchase :
  row_classList (render_row cheap_purchase) = ["highlight-green-bold"%string].
Proof. reflexivity. Qed.

(** C9, on the code. A purchase whose price is missing is styled
    highlight-green-bold, not highlight-green: the comparison
    [price <= 2] is made on [null], which counts as 0. *)
Theorem classList_missing_price :
  (forall t : trade,
     eqb_str (transactionType t) (js "P") = true -> price t = None ->
     row_classList (render_row t) = ["highlight-green-bold"%string]) /\
  price purchase_without_price = None /\
  price_cell purchase_without_price = CText (js "N/A") /\
  row_classList (render_row purchase_without_price)
  = ["highlight-green-bold"%string].
Proof.
  split.
  - intros t HP Hp. cbn [render_row row_classList].
    unfold classList. rewrite HP, Hp. reflexivity.
  - repeat split; reflexivity.
Qed.

(** C7, on the code. When the price fetch succeeds and the financials
    are unavailable, the analysis defaults to HOLD with empty details and
    showModal throws on the first metric: the title is written, but the
    content is not, the view is not displayed and no chart is made. *)
Theorem rowClick_without_financials (company : jsstring)
    (stockInfo : stockInfo_t) (pg : page) :
  rowClick company (Some stockInfo) None pg =
  ({| modal_display := modal_display pg;
      modal_title := (js "Detailed Analysis for " ++ company)%list;
      modal_content := modal_content pg;
      financialChartInstance := financialChartInstance pg;
      console_warn := console_warn pg |},
   Threw "TypeError: Cannot read properties of undefined (reading 'toFixed')")
  /\
  modal_display (fst (rowClick (js "ABC") (Some sample_stockInfo) None
                               closed_page)) = "none"%string.
Proof. split; reflexivity. Qed.

(** With financials the same click displays the view. *)
Lemma rowClick_with_financials :
  let fd := snapshot (dp 1000) (dp 150) (dp 2000) (dp 500) (dp 200)
                     (dp 300) (dp 1000) in
  let r := rowClick (js "ABC") (Some sample_stockInfo) (Some fd) closed_page in
  snd r = Normal /\ modal_display (fst r) = "flex"%string.
Proof. split; reflexivity. Qed.

End DashboardProperties.

(** * Further properties of the code *)

(** ** Zeros, infinities and NaN through the ratios *)

Section SpecialValueFacts.

Local Open Scope float_scope.

Lemma zero_or_nan_falsy (x : number) :
  zero_or_nan (Prim2SF x) -> truthy x = false.
Proof.
  intros [[s H]|H]; unfold truthy.
  - assert (E : (x =? 0) = true).
    { rewrite eqb_spec, H. destruct s; reflexivity. }
    rewrite E, orb_true_r. reflexivity.
  - apply isNaN_spec in H. rewrite H. reflexivity.
Qed.

Lemma falsy_zero_or_nan (x : number) :
  truthy x = false -> zero_or_nan (Prim2SF x).
Proof.
  unfold truthy. intros H. apply negb_false_iff, orb_true_iff in H.
  destruct H as [H|H].
  - right. apply isNaN_spec, H.
  - rewrite eqb_spec in H. change (Prim2SF 0) with (S754_zero false) in H.
    destruct (Prim2SF x) as [s|[]| |[] m e]; try discriminate.
    left. exists s. reflexivity.
Qed.

(** A zero divided by anything is a zero or NaN. *)
Lemma zero_div (y : number) : zero_or_nan (Prim2SF (0 / y)).
Proof.
  rewrite div_spec. change (Prim2SF 0) with (S754_zero false).
  unfold SF64div, SFdiv.
  destruct (Prim2SF y) as [sy|sy| |sy my ey];
    try (left; eexists; reflexivity); right; reflexivity.
Qed.

(** A zero or NaN times 100 is a zero or NaN. *)
Lemma zero_or_nan_mul_hundred (x : number) :
  zero_or_nan (Prim2SF x) -> zero_or_nan (Prim2SF (x * 100)).
Proof.
  intros H. rewrite mul_spec. change (Prim2SF 100) with sf_hundred.
  destruct H as [[s ->]| ->].
  - left. eexists. reflexivity.
  - right. reflexivity.
Qed.

(** A number above zero is positive and finite, or plus infinity. *)
Lemma positive_cases (x : number) :
  lt 0 x = true ->
  (exists m e, Prim2SF x = S754_finite false m e) \/
  Prim2SF x = S754_infinity false.
Proof.
  unfold lt. rewrite ltb_spec. change (Prim2SF 0) with (S754_zero false).
  destruct (Prim2SF x) as [s|[]| |[] m e]; try discriminate.
  - intros _. right. reflexivity.
  - intros _. left. exists m, e. reflexivity.
Qed.

(** A number above zero divided by zero is plus infinity. *)
Lemma positive_div_zero (x : number) : lt 0 x = true -> x / 0 = infinity.
Proof.
  intros H. apply Prim2SF_inj. rewrite div_spec.
  change (Prim2SF 0) with (S754_zero false).
  destruct (positive_cases x H) as [(m & e & ->)| ->]; reflexivity.
Qed.

(** Every comparison with NaN on the left is false. *)
Lemma nan_compare (x y : number) :
  isNaN x = true -> le x y = false /\ lt x y = false.
Proof.
  intros H. apply isNaN_spec in H. unfold le, lt.
  rewrite leb_spec, ltb_spec, H. split; reflexivity.
Qed.

(** What is at most [y] is not above [y]. *)
Lemma leb_not_gt (x y : number) : le x y = true -> gt x y = false.
Proof.
  unfold le, gt. rewrite leb_spec, ltb_spec. unfold SFleb, SFltb.
  rewrite (SFcompare_swap (Prim2SF x) (Prim2SF y)).
  destruct (SFcompare (Prim2SF x) (Prim2SF y)) as [[]|]; simpl;
    congruence.
Qed.

(** What is above [y] is not at most [y]. *)
Lemma gt_not_le (x y : number) : gt x y = true -> le x y = false.
Proof.
  intros H. destruct (le x y) eqn:E; [|reflexivity].
  rewrite (leb_not_gt x y E) in H. discriminate.
Qed.

End SpecialValueFacts.

(** ** More on the ratio analyzer *)

Section AnalyzerEdges.

Local Open Scope float_scope.

Lemma or_default_one_truthy (x : number) : truthy (or_default x 1) = true.
Proof.
  unfold or_default. destruct (truthy x) eqn:T; [exact T | reflexivity].
Qed.

(** X1. With a financials object present, none of the six ratios of the
    report is NaN, whatever the reported values are (zero, missing or
    infinite). *)
Theorem ratios_never_NaN (fd : financialData_t) (d : details_t) :
  details (analyzeFinancialData fd) = Some d ->
  isNaN (netProfitMargin d) = false /\
  isNaN (returnOnAssets d) = false /\
  isNaN (returnOnEquity d) = false /\
  isNaN (currentRatio d) = false /\
  isNaN (debtToEquity d) = false /\
  isNaN (assetTurnover d) = false.
Proof.
  unfold analyzeFinancialData. destruct (financials fd) as [f|];
    [|discriminate].
  cbn [details]. intros H. injection H as <-.
  unfold ratios;
    cbn [netProfitMargin returnOnAssets returnOnEquity currentRatio
         debtToEquity assetTurnover].
  repeat split; apply or_default_zero_not_NaN.
Qed.

Lemma ratios_never_NaN_witness :
  exists d : details_t,
    details (analyzeFinancialData zero_revenue_snapshot) = Some d /\
    isNaN (netProfitMargin d) = false /\ isNaN (assetTurnover d) = false.
Proof.
  eexists. split; [reflexivity|].
  destruct (ratios_never_NaN zero_revenue_snapshot _ eq_refl)
    as (H1 & _ & _ & _ & _ & H6).
  split; [exact H1 | exact H6].
Defined.

(** X2. The two denominators that default to 1, equity and current
    liabilities, are never zero and never NaN once extracted: the
    current ratio, the debt-to-equity ratio and the return on equity are
    never computed by a division by zero. *)
Theorem defaulted_denominators_nonzero (f : financials_t) :
  truthy (x_equity (extract f)) = true /\
  truthy (x_currentLiabilities (extract f)) = true /\
  strict_eq (x_equity (extract f)) 0 = false /\
  strict_eq (x_currentLiabilities (extract f)) 0 = false.
Proof.
  assert (T : forall v, truthy (opt_or v 1) = true).
  { intros [x|]; simpl; [apply or_default_one_truthy | reflexivity]. }
  assert (Z : forall x, truthy x = true -> strict_eq x 0 = false).
  { intros x H. unfold truthy in H.
    apply negb_true_iff, orb_false_iff in H. apply H. }
  unfold extract; cbn [x_equity x_currentLiabilities].
  repeat split; try apply Z; apply T.
Qed.

(** The ratio of a zero numerator is 0 after the fallback. *)
Lemma zero_numerator_ratio (y : number) : or_default (0 / y) 0 = 0.
Proof. apply or_default_falsy, zero_or_nan_falsy, zero_div. Qed.

Lemma zero_numerator_percentage (y : number) :
  or_default (0 / y * 100) 0 = 0.
Proof.
  apply or_default_falsy, zero_or_nan_falsy, zero_or_nan_mul_hundred,
    zero_div.
Qed.

(** What the fallback [_ || 0] extracts is 0 exactly when the reported
    value is missing, a zero or NaN. *)
Lemma opt_or_zero_cases (v : option number) :
  opt_or v 0 = 0 \/ truthy (opt_or v 0) = true.
Proof.
  destruct v as [x|]; simpl; [|left; reflexivity].
  unfold or_default. destruct (truthy x) eqn:T; [right; exact T|].
  left. reflexivity.
Qed.

(** X3. A snapshot whose net income is missing or zero, or whose current
    assets are missing or zero, is rated SELL, whatever its other values
    are: in particular every snapshot without an income statement or
    without a balance sheet. *)
Theorem sell_when_income_or_current_assets_missing (fd : financialData_t)
    (f : financials_t) :
  financials fd = Some f ->
  x_netIncome (extract f) = 0 \/ x_currentAssets (extract f) = 0 ->
  recommendation (analyzeFinancialData fd) = SELL.
Proof.
  intros Hf H. rewrite (analyze_present fd f Hf). cbn [recommendation].
  set (e := extract f) in *.
  destruct H as [H|H].
  - assert (R : returnOnAssets (ratios e) = 0).
    { unfold ratios; cbn [returnOnAssets]. rewrite H.
      apply zero_numerator_percentage. }
    unfold recommend, buy_condition, sell_condition. rewrite R.
    change (gt 0 5) with false. change (lt 0 1) with true.
    rewrite andb_false_r, orb_true_r. reflexivity.
  - assert (R : currentRatio (ratios e) = 0).
    { unfold ratios; cbn [currentRatio]. rewrite H.
      apply zero_numerator_ratio. }
    unfold recommend, buy_condition, sell_condition. rewrite R.
    change (gt 0 1.5) with false. change (lt 0 1) with true.
    rewrite andb_false_r, orb_true_r. reflexivity.
Qed.

Lemma sell_when_income_or_current_assets_missing_witness :
  recommendation (analyzeFinancialData no_balance_sheet_snapshot) = SELL.
Proof.
  apply (sell_when_income_or_current_assets_missing
           no_balance_sheet_snapshot _ eq_refl).
  right. reflexivity.
Defined.

(** X4. A snapshot whose revenue is missing or zero and whose net income
    is above zero has an infinite net profit margin: the fallback to 0
    does not apply, and the margin passes the test [> 10] of a BUY. *)
Theorem margin_infinite_without_revenue (fd : financialData_t)
    (f : financials_t) (d : details_t) :
  financials fd = Some f ->
  details (analyzeFinancialData fd) = Some d ->
  x_revenues (extract f) = 0 ->
  lt 0 (x_netIncome (extract f)) = true ->
  netProfitMargin d = infinity /\ gt (netProfitMargin d) 10 = true.
Proof.
  intros Hf Hd Hr Hn. rewrite (analyze_present fd f Hf) in Hd.
  cbn [details] in Hd. injection Hd as <-.
  assert (E : netProfitMargin (ratios (extract f)) = infinity).
  { unfold ratios; cbn [netProfitMargin].
    rewrite Hr, (positive_div_zero _ Hn). reflexivity. }
  rewrite E. split; reflexivity.
Qed.

(** Without revenue the worked example has an infinite margin and is
    still a BUY. *)
Lemma margin_infinite_without_revenue_witness :
  metric netProfitMargin (analyzeFinancialData no_revenue_snapshot)
  = Some infinity /\
  recommendation (analyzeFinancialData no_revenue_snapshot) = BUY.
Proof.
  split; [|reflexivity].
  destruct (margin_infinite_without_revenue no_revenue_snapshot _ _
              eq_refl eq_refl eq_refl eq_refl) as [H _].
  unfold metric. cbn [option_map analyzeFinancialData].
  revert H. cbn [details analyzeFinancialData financials no_revenue_snapshot
                 snapshot option_map].
  intros ->. reflexivity.
Defined.



End AnalyzerEdges.

(** ** More on the transaction store *)

Section StoreEdges.

(** X6. A refresh whose response is complete replaces the snapshot by the
    filtered records of that response, whatever the store held before,
    and logs the update; a complete response none of whose records passes
    the filter (an empty array included) empties the store. *)
Theorem complete_refresh_replaces_snapshot (st : state)
    (o : axios_outcome transactions_body) (ts : list trade) :
  complete_response o = Some ts ->
  let st' := fetchInsiderTradingData st o in
  insiderData st' = filter (fun t => isUsEquity (symbol t)) ts /\
  console_log st' =
    console_log st ++
    ["Insider trading data updated for US equities only."%string] /\
  console_error st' = console_error st /\
  (Forall (fun t => isUsEquity (symbol t) = false) ts ->
   getTransactions st' = []).
Proof.
  intros Hc. pose proof (fetchAndFilter_complete o) as H.
  rewrite Hc in H. cbv zeta.
  unfold fetchInsiderTradingData, getTransactions. rewrite H.
  cbn [insiderData console_log console_error].
  repeat split. intros Hall. unfold us_equities.
  induction ts as [|t ts IH] in Hall |- *; [reflexivity|].
  inversion Hall as [|? ? Ht Hts]; subst. simpl. rewrite Ht.
  apply IH, Hts.
Qed.

(** A store with one record, refreshed by a response without any ticker:
    the store is emptied. *)
Lemma complete_refresh_replaces_snapshot_witness :
  getTransactions (fetchInsiderTradingData one_record_state foreign_response)
  = [].
Proof.
  apply (complete_refresh_replaces_snapshot one_record_state
           foreign_response [brk_b_sale; nameless_record] eq_refl).
  repeat constructor.
Defined.

(** X7. A refresh, from any state of the store and of the console, adds
    exactly one line of its own: on [console.log] when its response is
    complete, [console.error] being left as it was, and on
    [console.error] in every other case, [console.log] being left as it
    was. *)
Theorem one_console_line_per_refresh (st : state)
    (o : axios_outcome transactions_body) :
  let st' := fetchInsiderTradingData st o in
  match complete_response o with
  | Some _ =>
      console_log st' =
        console_log st ++
        ["Insider trading data updated for US equities only."%string] /\
      console_error st' = console_error st
  | None =>
      console_log st' = console_log st /\
      exists msg : string,
        console_error st' =
        console_error st ++
        [("Error fetching insider trading data:"%string, msg)]
  end.
Proof.
  cbv zeta. pose proof (fetchAndFilter_complete o) as H.
  unfold fetchInsiderTradingData.
  destruct (complete_response o) as [ts|].
  - rewrite H. split; reflexivity.
  - destruct H as [e ->]. split; [reflexivity|].
    exists (message_of e). reflexivity.
Qed.

End StoreEdges.

(** ** From the providers to the detail view *)

Section Pipelines.

Lemma fetchTiingoData_tiingo_handler (symbol : string)
    (o : axios_outcome (option (list price_record))) :
  fetchTiingoData (FetchResponse (tiingo_handler symbol o)) =
  match o with
  | Fulfilled (Some (latest :: _)) =>
      Some {| si_price := json_number (close latest);
              si_high := json_number (high latest);
              si_low := json_number (low latest);
              si_volume := json_number (volume latest) |}
  | _ => None
  end.
Proof.
  destruct o as [[[|p ps]|]|e]; try reflexivity.
  unfold fetchTiingoData, tiingo_handler.
  destruct (response_ok _); reflexivity.
Qed.

Lemma fetchFinancialData_polygon_handler (o : axios_outcome financials_body) :
  fetchFinancialData (FetchResponse (polygon_financials_handler o)) =
  match o with
  | Fulfilled (FBody (Some (r :: _))) => Some (json_transit r)
  | _ => None
  end.
Proof.
  destruct o as [[|[[|r rs]|]]|e]; reflexivity.
Qed.

(** A number that is finite and not zero arrives as it was sent. *)
Lemma json_number_usable (x : number) :
  truthy x = true -> (x =? infinity)%float = false ->
  (x =? neg_infinity)%float = false ->
  json_number (Some x) = Some x.
Proof.
  intros T I1 I2. unfold json_number. rewrite (truthy_not_NaN x T), I1, I2.
  unfold truthy in T. apply negb_true_iff, orb_false_iff in T.
  destruct T as [_ ->]. reflexivity.
Qed.

(** X8. The price lookup, from the provider to the script: fetchTiingoData
    on the answer of /api/tiingo returns a price point exactly when the
    provider answered with a series that is not empty, and the price
    point is then made of the close, high, low and volume of the first
    element as they arrive through JSON (NaN and the infinities as
    [null], a zero as 0, any other number unchanged); every provider
    error and every empty series gives [null], whatever status the proxy
    forwards. *)
Theorem price_lookup (symbol : string)
    (o : axios_outcome (option (list price_record))) :
  (forall latest rest,
     o = Fulfilled (Some (latest :: rest)) ->
     fetchTiingoData (FetchResponse (tiingo_handler symbol o)) =
     Some {| si_price := json_number (close latest);
             si_high := json_number (high latest);
             si_low := json_number (low latest);
             si_volume := json_number (volume latest) |}) /\
  ((forall latest rest, o <> Fulfilled (Some (latest :: rest))) ->
   fetchTiingoData (FetchResponse (tiingo_handler symbol o)) = None) /\
  (forall e, o = Rejected e ->
     fetchTiingoData (FetchResponse (tiingo_handler symbol o)) = None).
Proof.
  rewrite fetchTiingoData_tiingo_handler. split; [|split].
  - intros latest rest ->. reflexivity.
  - intros H. destruct o as [[[|p ps]|]|e]; try reflexivity.
    exfalso. apply (H p ps). reflexivity.
  - intros e ->. reflexivity.
Qed.

(** X9. The financials lookup, from the provider to the script:
    fetchFinancialData on the answer of /api/polygon-financials returns
    the provider's first result as it arrives through JSON (each value
    that is NaN or infinite as [null], a zero as 0, any other number
    unchanged) when there is one, and [null] in every other case (no
    results, no body, or a provider error); whether the result has a
    [financials] object is kept. *)
Theorem financials_lookup (o : axios_outcome financials_body) :
  (forall r rest,
     o = Fulfilled (FBody (Some (r :: rest))) ->
     fetchFinancialData (FetchResponse (polygon_financials_handler o))
     = Some {| financials :=
                 match financials r with
                 | Some f => Some (json_financials f)
                 | None => None
                 end |}) /\
  ((forall r rest, o <> Fulfilled (FBody (Some (r :: rest)))) ->
   fetchFinancialData (FetchResponse (polygon_financials_handler o)) = None).
Proof.
  rewrite fetchFinancialData_polygon_handler. split.
  - intros r rest ->. reflexivity.
  - intros H. destruct o as [[|[[|r rs]|]]|e]; try reflexivity.
    exfalso. apply (H r rs). reflexivity.
Qed.

End Pipelines.

(** ** The detail view *)

Section DetailView.

Lemma rowClick_no_price (company : jsstring)
    (financialData : option financialData_t) (pg : page) :
  rowClick company None financialData pg = (pg, Normal).
Proof. reflexivity. Qed.

Lemma rowClick_no_data (company : jsstring) (si : stockInfo_t) (pg : page) :
  rowClick company (Some si) None pg =
  ({| modal_display := modal_display pg;
      modal_title := (js "Detailed Analysis for " ++ company)%list;
      modal_content := modal_content pg;
      financialChartInstance := financialChartInstance pg;
      console_warn := console_warn pg |},
   Threw "TypeError: Cannot read properties of undefined (reading 'toFixed')").
Proof. reflexivity. Qed.

Lemma rowClick_no_financials (company : jsstring) (si : stockInfo_t)
    (fd : financialData_t) (pg : page) :
  financials fd = None ->
  rowClick company (Some si) (Some fd) pg =
  ({| modal_display := modal_display pg;
      modal_title := (js "Detailed Analysis for " ++ company)%list;
      modal_content := modal_content pg;
      financialChartInstance := financialChartInstance pg;
      console_warn :=
        console_warn pg ++
        ["Incomplete financial data. Analysis may be limited."%string] |},
   Threw "TypeError: Cannot read properties of undefined (reading 'toFixed')").
Proof.
  intros Hf. unfold rowClick, analyzeFinancialData, analysis_warning.
  rewrite Hf. reflexivity.
Qed.

Lemma rowClick_success (company : jsstring) (si : stockInfo_t)
    (fd : financialData_t) (f : financials_t) (pg : page) :
  financials fd = Some f ->
  let r := rowClick company (Some si) (Some fd) pg in
  snd r = Normal /\
  modal_display (fst r) = "flex"%string /\
  modal_title (fst r) = (js "Detailed Analysis for " ++ company)%list /\
  (exists c, modal_content (fst r) = Some c /\
             shown_recommendation c = recommend (ratios (extract f)) /\
             List.length (shown_metrics c) = 6%nat) /\
  (exists data, financialChartInstance (fst r) = Some data /\
                List.length data = 5%nat) /\
  console_warn (fst r) = console_warn pg.
Proof.
  intros Hf. cbv zeta.
  unfold rowClick, analyzeFinancialData, analysis_warning, showModal,
    createChart.
  rewrite Hf. cbn.
  repeat split; eexists; repeat split.
Qed.

(** X10. A row click completes normally, or throws the TypeError of
    [toFixed]: it never fails inside createChart, and it never makes
    showModal skip the chart with a warning.  The only warning a click
    writes is the one of analyzeFinancialData, exactly when a price point
    and financial data were fetched and the data has no [financials]
    object.  A click that throws leaves the view's display, its content
    and the chart as they were. *)
Theorem rowClick_completion (company : jsstring)
    (stockInfo : option stockInfo_t)
    (financialData : option financialData_t) (pg : page) :
  let r := rowClick company stockInfo financialData pg in
  let incomplete :=
    "Incomplete financial data. Analysis may be limited."%string in
  (exists added : list string,
     console_warn (fst r) = (console_warn pg ++ added)%list /\
     (added = [] \/ added = [incomplete]) /\
     (added = [incomplete] <->
      exists si fd, stockInfo = Some si /\ financialData = Some fd /\
                    financials fd = None)) /\
  (snd r = Normal \/
   snd r = Threw
     "TypeError: Cannot read properties of undefined (reading 'toFixed')") /\
  (snd r <> Normal ->
   modal_display (fst r) = modal_display pg /\
   modal_content (fst r) = modal_content pg /\
   financialChartInstance (fst r) = financialChartInstance pg).
Proof.
  cbv zeta. destruct stockInfo as [si|].
  - destruct financialData as [fd|].
    + destruct (financials fd) as [f|] eqn:Hf.
      * destruct (rowClick_success company si fd f pg Hf)
          as (H1 & _ & _ & _ & _ & H2).
        rewrite H1, H2. split; [|split].
        -- exists []. split; [symmetry; apply app_nil_r|].
           split; [left; reflexivity|]. split; [discriminate|].
           intros (si' & fd' & _ & E & Hn). injection E as <-. congruence.
        -- left. reflexivity.
        -- intros H; contradiction.
      * rewrite (rowClick_no_financials company si fd pg Hf).
        cbn [fst snd modal_display modal_content financialChartInstance
             console_warn].
        split; [|split].
        -- eexists. split; [reflexivity|]. split; [right; reflexivity|].
           split; [|reflexivity]. intros _. exists si, fd. repeat split.
           exact Hf.
        -- right. reflexivity.
        -- intros _. repeat split.
    + rewrite rowClick_no_data.
      cbn [fst snd modal_display modal_content financialChartInstance
           console_warn].
      split; [|split].
      * exists []. split; [symmetry; apply app_nil_r|].
        split; [left; reflexivity|]. split; [discriminate|].
        intros (si' & fd' & _ & E & _). discriminate.
      * right. reflexivity.
      * intros _. repeat split.
  - rewrite rowClick_no_price. cbn [fst snd].
    split; [|split].
    + exists []. split; [symmetry; apply app_nil_r|].
      split; [left; reflexivity|]. split; [discriminate|].
      intros (si' & fd' & E & _). discriminate.
    + left. reflexivity.
    + intros H; contradiction.
Qed.

(** Financial data without a [financials] object: the click warns once
    and throws, the view staying hidden. *)
Lemma rowClick_completion_witness :
  rowClick (js "ABC") (Some sample_stockInfo) (Some empty_financialData)
           closed_page
  = ({| modal_display := "none";
        modal_title := (js "Detailed Analysis for ABC");
        modal_content := None;
        financialChartInstance := None;
        console_warn :=
          ["Incomplete financial data. Analysis may be limited."%string] |},
     Threw
       "TypeError: Cannot read properties of undefined (reading 'toFixed')")
  /\
  modal_display
    (fst (rowClick (js "ABC") (Some sample_stockInfo)
                   (Some empty_financialData) closed_page))
  = modal_display closed_page.
Proof.
  split; [reflexivity|].
  apply (rowClick_completion (js "ABC") (Some sample_stockInfo)
           (Some empty_financialData) closed_page).
  discriminate.
Defined.

End DetailView.

(** ** The detail view, from the providers and over the events *)

Section DetailViewEvents.

(** X11. From the two providers to the page: with the view hidden, a row
    click displays it exactly when the price provider answered with a
    series that is not empty and the financials provider answered with a
    first result that has a [financials] object. *)
Theorem detail_view_opens_iff (company : jsstring) (symbol : string)
    (prices : axios_outcome (option (list price_record)))
    (fin : axios_outcome financials_body) (pg : page) :
  modal_display pg = "none"%string ->
  let r :=
    rowClick company
      (fetchTiingoData (FetchResponse (tiingo_handler symbol prices)))
      (fetchFinancialData (FetchResponse (polygon_financials_handler fin)))
      pg in
  modal_display (fst r) = "flex"%string <->
  (exists latest rest, prices = Fulfilled (Some (latest :: rest))) /\
  (exists fd rest f,
     fin = Fulfilled (FBody (Some (fd :: rest))) /\ financials fd = Some f).
Proof.
  intros Hpg. cbv zeta.
  rewrite fetchTiingoData_tiingo_handler, fetchFinancialData_polygon_handler.
  assert (NF : "none"%string <> "flex"%string) by discriminate.
  split.
  - intros H.
    destruct prices as [[[|p ps]|]|e];
      try (rewrite rowClick_no_price in H; cbn [fst] in H; congruence).
    split; [exists p, ps; reflexivity|].
    destruct fin as [[|[[|fd rs]|]]|e];
      try (rewrite rowClick_no_data in H;
           cbn [fst modal_display] in H; congruence).
    destruct (financials fd) as [f|] eqn:Hf.
    + exists fd, rs, f. split; reflexivity || exact Hf.
    + rewrite rowClick_no_financials in H
        by (cbn [json_transit json_financialData financials];
            rewrite Hf; reflexivity).
      cbn [fst modal_display] in H. congruence.
  - intros [(p & ps & ->) (fd & rs & f & -> & Hf)].
    apply (rowClick_success company _ (json_transit fd) (json_financials f) pg).
    cbn [json_transit json_financialData financials]. rewrite Hf.
    reflexivity.
Qed.

(** The view opens on the worked example, and stays hidden when the
    financials provider answers 429. *)
Lemma detail_view_opens_iff_witness :
  modal_display
    (fst (rowClick (js "ABC")
            (fetchTiingoData
               (FetchResponse
                  (tiingo_handler "ABC"
                     (Fulfilled
                        (Some [{| close := Some 12.5%float;
                                  high := Some 13%float;
                                  low := Some 12%float;
                                  volume := Some 250000%float |}])))))
            (fetchFinancialData
               (FetchResponse
                  (polygon_financials_handler
                     (Fulfilled (FBody (Some [healthy_snapshot]))))))
            closed_page))
  = "flex"%string.
Proof.
  apply (detail_view_opens_iff (js "ABC") "ABC" _ _ closed_page eq_refl).
  split.
  - eexists. eexists. reflexivity.
  - eexists. eexists. eexists. split; reflexivity.
Defined.

Lemma browse_snoc (events : list event) (ev : event) :
  browse (events ++ [ev]) = handle (browse events) ev.
Proof. unfold browse. rewrite fold_left_app. reflexivity. Qed.

Lemma closeModal_invariant (pg : page) :
  detail_view_invariant pg -> detail_view_invariant (closeModal pg).
Proof.
  intros (_ & _ & _ & W). unfold detail_view_invariant, closeModal.
  cbn [modal_display financialChartInstance modal_content console_warn].
  split; [left; reflexivity|]. split; [discriminate|].
  split; [discriminate | exact W].
Qed.

Lemma rowClick_invariant (company : jsstring)
    (stockInfo : option stockInfo_t)
    (financialData : option financialData_t) (pg : page) :
  detail_view_invariant pg ->
  detail_view_invariant (fst (rowClick company stockInfo financialData pg)).
Proof.
  intros Inv. destruct stockInfo as [si|];
    [|rewrite rowClick_no_price; exact Inv].
  destruct financialData as [fd|].
  - destruct (financials fd) as [f|] eqn:Hf.
    + destruct (rowClick_success company si fd f pg Hf)
        as (_ & HD & _ & (c & HC & _ & H6) & (data & HG & H5) & HW).
      destruct Inv as (_ & _ & _ & W).
      unfold detail_view_invariant. rewrite HD, HC, HG, HW.
      repeat split.
      * right. reflexivity.
      * injection H as <-. exact H5.
      * intros _. exists c. split; [reflexivity | exact H6].
      * exact W.
    + rewrite (rowClick_no_financials company si fd pg Hf).
      destruct Inv as (I1 & I2 & I3 & W).
      unfold detail_view_invariant.
      cbn [fst modal_display financialChartInstance modal_content
           console_warn].
      split; [exact I1|]. split; [exact I2|]. split; [exact I3|].
      apply Forall_app. split; [exact W|]. repeat constructor.
  - rewrite rowClick_no_data. exact Inv.
Qed.

(** X12. Whatever rows are clicked, with whatever the fetches return, and
    however the view is closed: the view is hidden or displayed; a chart
    exists only while the view is displayed, and has five values; a
    displayed view shows a content with the six metrics; and every warning
    written is the one of analyzeFinancialData for missing financials,
    never the one of showModal that the chart is skipped. *)
Theorem detail_view_invariant_holds (events : list event) :
  detail_view_invariant (browse events).
Proof.
  induction events as [|ev events IH] using rev_ind.
  - unfold browse, detail_view_invariant, closed_page.
    cbn [fold_left modal_display financialChartInstance modal_content
         console_warn].
    split; [left; reflexivity|]. split; [discriminate|].
    split; [discriminate | constructor].
  - rewrite browse_snoc. destruct ev as [company si fd| |[]]; cbn [handle].
    + apply rowClick_invariant, IH.
    + apply closeModal_invariant, IH.
    + apply closeModal_invariant, IH.
    + exact IH.
Qed.

(** Both ways of closing hide the view and leave no chart, from any page
    the events lead to; a click in the window outside the overlay changes
    nothing. *)
Lemma closing_releases_chart (events : list event) :
  let pg := browse events in
  modal_display (browse (events ++ [CloseClick])) = "none"%string /\
  financialChartInstance (browse (events ++ [CloseClick])) = None /\
  browse (events ++ [WindowClick true]) = browse (events ++ [CloseClick]) /\
  browse (events ++ [WindowClick false]) = pg /\
  browse (events ++ [CloseClick; CloseClick]) = browse (events ++ [CloseClick]).
Proof.
  cbv zeta. rewrite !browse_snoc.
  replace (events ++ [CloseClick; CloseClick])
    with ((events ++ [CloseClick]) ++ [CloseClick])
    by (rewrite <- app_assoc; reflexivity).
  rewrite !browse_snoc. repeat split.
Qed.

End DetailViewEvents.

(** ** The table of transactions *)

Section Table.

Local Open Scope float_scope.

Lemma eqb_str_eq (a b : jsstring) : eqb_str a b = true <-> a = b.
Proof.
  revert b. induction a as [|x a IH]; intros [|y b]; simpl;
    try (split; [discriminate | discriminate]); [tauto|].
  rewrite andb_true_iff, N.eqb_eq, IH. split.
  - intros [-> ->]. reflexivity.
  - intros H. injection H as -> ->. split; reflexivity.
Qed.

(** The type shown is "P" exactly when the record's code is "P". *)
Lemma transactionType_purchase (t : trade) :
  eqb_str (transactionType t) (js "P") = true <->
  transactionCode t = Some (js "P").
Proof.
  rewrite eqb_str_eq. unfold transactionType, opt_or_str.
  destruct (transactionCode t) as [[|c s]|]; simpl; split; intros H;
    try discriminate; congruence.
Qed.

(** The price of a row is the record's price when that is a number other
    than zero and NaN, and [null] otherwise. *)
Lemma price_present (t : trade) (p : number) :
  price t = Some p <-> transactionPrice t = Some p /\ truthy p = true.
Proof.
  unfold price, parseFloat. destruct (transactionPrice t) as [x|].
  - destruct (truthy x) eqn:T; split.
    + intros H. injection H as <-. split; [reflexivity | exact T].
    + intros [H _]. exact H.
    + discriminate.
    + intros [H T']. injection H as ->. congruence.
  - split; [discriminate | intros [H _]; discriminate].
Qed.

(** X13. The style of a row, from the fields of its record: a row is
    styled exactly when the code is "P"; it is then highlight-green
    exactly when the price is present, not zero, and not at most 2, and
    highlight-green-bold in every other case; no other class (such as
    highlight-red) is ever given. *)
Theorem row_style (t : trade) :
  let cls := row_classList (render_row t) in
  (cls = [] \/ cls = ["highlight-green"%string] \/
   cls = ["highlight-green-bold"%string]) /\
  (cls = [] <-> transactionCode t <> Some (js "P")) /\
  (cls = ["highlight-green"%string] <->
   transactionCode t = Some (js "P") /\
   exists p, transactionPrice t = Some p /\ truthy p = true /\
             le p 2 = false).
Proof.
  cbv zeta. cbn [render_row row_classList]. unfold classList.
  pose proof (transactionType_purchase t) as HP.
  destruct (eqb_str (transactionType t) (js "P")) eqn:E.
  - assert (C : transactionCode t = Some (js "P")) by (apply HP; reflexivity).
    destruct (price t) as [p|] eqn:Hp; cbn [le_null].
    + pose proof (proj1 (price_present t p) Hp) as [Hraw Tp].
      destruct (le p 2) eqn:L.
      * split; [right; right; reflexivity|]. split.
        -- split; [discriminate | intros H; contradiction].
        -- split; [discriminate|].
           intros (_ & q & Hq & _ & Lq). rewrite Hraw in Hq.
           injection Hq as <-. congruence.
      * split; [right; left; reflexivity|]. split.
        -- split; [discriminate | intros H; contradiction].
        -- split; [|reflexivity]. intros _. split; [exact C|].
           exists p. repeat split; assumption.
    + change (le 0 2) with true. cbv iota.
      split; [right; right; reflexivity|]. split.
      * split; [discriminate | intros H; contradiction].
      * split; [discriminate|].
        intros (_ & q & Hq & Tq & _).
        assert (price t = Some q) by (apply price_present; split; assumption).
        congruence.
  - assert (C : transactionCode t <> Some (js "P")).
    { intros H. apply HP in H. discriminate. }
    split; [left; reflexivity|]. split.
    + split; [intros _; exact C | reflexivity].
    + split; [discriminate | intros [H _]; contradiction].
Qed.

Lemma fetchData_after_failure (text : string)
    (o : fetch_outcome (list trade)) :
  fetchData (TableText text) o = failure_text.
Proof.
  destruct o as [|r]; [reflexivity|]. unfold fetchData.
  destruct (response_json r); reflexivity.
Qed.

Lemma refreshes_after_failure (outcomes : list (fetch_outcome (list trade))) :
  fold_left fetchData outcomes failure_text = failure_text.
Proof.
  induction outcomes as [|o outcomes IH]; [reflexivity|].
  cbn [fold_left]. unfold failure_text at 1.
  rewrite fetchData_after_failure. exact IH.
Qed.

Lemma fetchData_fails (tbl : data_table) (o : fetch_outcome (list trade)) :
  fetch_fails o -> fetchData tbl o = failure_text.
Proof.
  destruct o as [|r]; [reflexivity|]. cbn [fetch_fails]. unfold fetchData.
  intros ->. reflexivity.
Qed.

(** X14. One failed fetch of the table is final: the failure text
    replaces the table together with its body, so every later fetch,
    successful or not, ends in the same failure text. *)
Theorem failed_fetch_is_final
    (before after : list (fetch_outcome (list trade)))
    (o : fetch_outcome (list trade)) :
  fetch_fails o ->
  refreshes (before ++ o :: after) = TableText "Failed to load data.".
Proof.
  intros F. unfold refreshes. rewrite fold_left_app. cbn [fold_left].
  rewrite (fetchData_fails _ o F). apply refreshes_after_failure.
Qed.

(** The server is not reached once, and answers with one record at the
    next fetch: the table still reads as failed. *)
Lemma failed_fetch_is_final_witness :
  refreshes
    [FetchRejected;
     FetchResponse {| status := 200; body := Json [cheap_purchase] |}]
  = TableText "Failed to load data.".
Proof.
  apply (failed_fetch_is_final [] _ FetchRejected). exact I.
Defined.

(** X15. While no fetch fails, the table shows the rows of the last
    answer, one row per record in the order of the answer, and is empty
    before the first answer. *)
Theorem table_shows_last_answer
    (outcomes : list (fetch_outcome (list trade))) (data : list trade)
    (response : http_response (list trade)) :
  Forall (fun o => ~ fetch_fails o) outcomes ->
  response_json response = Some data ->
  refreshes (outcomes ++ [FetchResponse response])
  = TableRows (map render_row data).
Proof.
  intros Hall Hj. unfold refreshes. rewrite fold_left_app. cbn [fold_left].
  assert (R : exists rows,
             fold_left fetchData outcomes empty_table = TableRows rows).
  { induction outcomes as [|o outcomes IH] using rev_ind.
    - exists []. reflexivity.
    - apply Forall_app in Hall as [H1 H2]. inversion H2 as [|? ? Ho _]; subst.
      destruct (IH H1) as [rows IHr]. rewrite fold_left_app. cbn [fold_left].
      rewrite IHr. destruct o as [|r]; [exfalso; apply Ho; exact I|].
      cbn [fetch_fails] in Ho. unfold fetchData.
      destruct (response_json r) as [d|]; [|contradiction].
      eexists. reflexivity. }
  destruct R as [rows ->]. unfold fetchData. rewrite Hj. reflexivity.
Qed.

Lemma table_shows_last_answer_witness :
  refreshes
    [FetchResponse {| status := 200; body := Json [sale_of_five] |};
     FetchResponse {| status := 200; body := Json [cheap_purchase] |}]
  = TableRows [render_row cheap_purchase].
Proof.
  apply (table_shows_last_answer
           [FetchResponse {| status := 200; body := Json [sale_of_five] |}]
           [cheap_purchase]
           {| status := 200; body := Json [cheap_purchase] |}).
  - constructor; [|constructor]. simpl. discriminate.
  - reflexivity.
Defined.

End Table.

(** ** From the store to the table *)

Section StoreToTable.

Local Open Scope float_scope.
#[local] Set Warnings "-inexact-float".

Lemma company_of_ticker (t : trade) (s : jsstring) :
  symbol t = Some s -> us_equity_ticker s -> company t = s.
Proof.
  intros Hs [Hne _]. unfold company, opt_or_str. rewrite Hs.
  destruct s as [|c s]; [contradiction | reflexivity].
Qed.

(** X16. From the providers' responses to the table: whatever the
    refreshes of the server were, a fetch of /api/insider-trades on the
    page as loaded shows one row per record of the snapshot, in order,
    each rendered from the record as it arrives through JSON (a share
    delta or a price that is NaN or infinite arrives as [null], a zero
    as 0), and the first cell of every row is the record's symbol, a
    ticker of uppercase letters (never the placeholder "N/A"). *)
Theorem table_rows_are_tickers
    (outcomes : list (axios_outcome transactions_body)) :
  let st := run outcomes in
  let arrived :=
    map (fun t =>
           {| symbol := symbol t;
              name := name t;
              transactionCode := transactionCode t;
              change := json_number (change t);
              transactionPrice := json_number (transactionPrice t);
              transactionDate := transactionDate t |})
        (getTransactions st) in
  fetchData empty_table (FetchResponse (insider_trades_handler st))
  = TableRows (map render_row arrived) /\
  List.length (map render_row arrived) = List.length (getTransactions st) /\
  Forall2 (fun t r => exists s, symbol t = Some s /\
                                nth_error (row_cells r) 0 = Some (CText s) /\
                                s <> [] /\ Forall uppercase s)
          (getTransactions st) (map render_row arrived).
Proof.
  cbv zeta. split; [reflexivity|]. split; [rewrite !length_map; reflexivity|].
  unfold getTransactions. rewrite run_insiderData.
  destruct (last_complete outcomes) as [ts|]; [|constructor].
  pose proof (us_equities_tickers ts) as H.
  induction (us_equities ts) as [|t l IH]; [constructor|].
  inversion H as [|? ? (s & Hs & Ht) Hl]; subst.
  cbn [map]. constructor; [|apply IH, Hl].
  exists s. split; [exact Hs|]. split; [|exact Ht].
  cbn [render_row row_cells nth_error]. f_equal. f_equal.
  apply company_of_ticker; [exact Hs | exact Ht].
Qed.

(** X17. isRecommendedBuy: a price of at most 2 is recommended whatever
    the high and the volume are; a price that is NaN is never
    recommended; and a price above 2 is not recommended when the volume
    is at most 100000. *)
Theorem isRecommendedBuy_edges (stockInfo : stock_figures) :
  (le (fig_price stockInfo) 2 = true -> isRecommendedBuy stockInfo = true) /\
  (isNaN (fig_price stockInfo) = true ->
   isRecommendedBuy stockInfo = false) /\
  (gt (fig_price stockInfo) 2 = true ->
   le (fig_volume stockInfo) 100000 = true ->
   isRecommendedBuy stockInfo = false).
Proof.
  unfold isRecommendedBuy. split; [|split].
  - intros ->. reflexivity.
  - intros N.
    destruct (nan_compare (fig_price stockInfo) 2 N) as [-> _].
    destruct (nan_compare (fig_price stockInfo)
                (0.7 * fig_high stockInfo) N) as [_ ->].
    reflexivity.
  - intros P V. rewrite (gt_not_le _ _ P), (leb_not_gt _ _ V).
    rewrite andb_false_r. reflexivity.
Qed.

(** A stock at 1.5 is recommended; a stock at 10, well below its high of
    20, is not when only 50000 shares were traded. *)
Lemma isRecommendedBuy_edges_witness :
  isRecommendedBuy
    {| fig_price := 1.5; fig_high := 1.75; fig_volume := 10 |} = true /\
  isRecommendedBuy
    {| fig_price := 10; fig_high := 20; fig_volume := 50000 |} = false.
Proof.
  split.
  - apply (isRecommendedBuy_edges
             {| fig_price := 1.5; fig_high := 1.75; fig_volume := 10 |}).
    reflexivity.
  - apply (isRecommendedBuy_edges
             {| fig_price := 10; fig_high := 20; fig_volume := 50000 |});
      reflexivity.
Defined.

End StoreToTable.

(** ** Rows without a share count, and the status of the price endpoint *)

Section RowsAndStatus.

Local Open Scope float_scope.

(** X18. A record whose share delta is missing, zero or NaN is shown
    with 0 shares and with "N/A" as its trade value, whatever its price
    is. *)
Theorem no_shares_no_trade_value (t : trade) :
  change t = None \/ (exists x, change t = Some x /\ truthy x = false) ->
  shares t = 0 /\
  tradeValue t = 0 /\
  nth_error (row_cells (render_row t)) 3 = Some (CNumber 0) /\
  tradeValue_shown (render_row t) = Some (CText (js "N/A")).
Proof.
  intros H.
  assert (S0 : shares t = 0).
  { unfold shares. destruct H as [->|(x & -> & T)]; [reflexivity|].
    simpl. apply or_default_falsy, T. }
  assert (V0 : tradeValue t = 0).
  { unfold tradeValue. rewrite S0. destruct (price t) as [p|]; [|reflexivity].
    change (truthy 0) with false. rewrite andb_false_r. reflexivity. }
  split; [exact S0|]. split; [exact V0|].
  unfold tradeValue_shown. cbn [render_row row_cells nth_error].
  unfold tradeValue_cell. rewrite S0, V0. split; reflexivity.
Qed.

Lemma no_shares_no_trade_value_witness :
  tradeValue_shown (render_row aapl_purchase) = Some (CText (js "N/A")).
Proof.
  apply (no_shares_no_trade_value aapl_purchase). left. reflexivity.
Defined.

(** X19. The price endpoint on a provider error: the status of the answer
    is the provider's own status when the error carries one (other than
    0), and 500 when it carries none. *)
Theorem tiingo_error_status (symbol : string) (e : axios_error) :
  (forall c : Z, response_status e = Some c -> c <> 0%Z ->
     status (tiingo_handler (P := price_record) symbol (Rejected e)) = c) /\
  (response_status e = None ->
   status (tiingo_handler (P := price_record) symbol (Rejected e)) = 500%Z).
Proof.
  split.
  - intros c Hc Hnz. apply (tiingo_handler_status _ symbol e c Hc Hnz).
  - intros H. rewrite tiingo_handler_propagates, H. reflexivity.
Qed.

Lemma tiingo_error_status_witness :
  status (tiingo_handler (P := price_record) "ABC" (Rejected too_many_requests))
  = 429%Z.
Proof.
  apply (proj1 (tiingo_error_status "ABC" too_many_requests) 429%Z);
    [reflexivity | discriminate].
Defined.

End RowsAndStatus.
